(** * simple-mod-sync: the two sync-file translators

    A shallow embedding of [translators/static.py] and
    [translators/modrinth_versions.py], and the properties of their
    manifest location, URL correction, name derivation, loader mapping
    and version/project join. *)

From Stdlib Require Import ZArith NArith List Bool Ascii String Lia.
Import ListNotations.

Local Open Scope string_scope.
Local Open Scope Z_scope.

(** ** Python built-ins used by both scripts *)

Module Py.

(** Exceptions the two scripts can raise. *)
Inductive exn : Type :=
| KeyError (key : string)
| FileNotFoundError (path : string)
| BadZipFile (msg : string)
| Exception (msg : string).

(** Outcome of a call that either returns or raises. *)
Inductive result (A : Type) : Type :=
| Return (a : A)
| Raise (e : exn).
Arguments Return {A} a.
Arguments Raise {A} e.

Definition len (s : string) : Z := Z.of_nat (String.length s).

(** [s.startswith(p)] *)
Definition startswith (s p : string) : bool := String.prefix p s.

(** [s.endswith(p)]: [p] is [s] itself or a suffix of its tail. *)
Fixpoint endswith (s p : string) : bool :=
  (s =? p)%string ||
  match s with
  | EmptyString => false
  | String _ s' => endswith s' p
  end.

(** [s.rfind(sub)]: the highest index at which [sub] occurs, or -1. *)
Fixpoint rfind (s sub : string) : Z :=
  match s with
  | EmptyString => if String.prefix sub "" then 0 else -1
  | String _ s' =>
      let r := rfind s' sub in
      if negb (r =? -1) then r + 1
      else if String.prefix sub s then 0 else -1
  end.

Fixpoint drop (n : nat) (s : string) : string :=
  match n, s with
  | O, _ => s
  | S _, EmptyString => EmptyString
  | S n', String _ s' => drop n' s'
  end.

(** [s[i:]], with Python's treatment of negative and too large [i]. *)
Definition slice_from (s : string) (i : Z) : string :=
  let i' := if i <? 0 then Z.max 0 (i + len s) else i in
  drop (Z.to_nat i') s.

(** [s.split(sep)] for a one-character separator; never the empty list. *)
Fixpoint split (s : string) (sep : ascii) : list string :=
  match s with
  | EmptyString => [EmptyString]
  | String c s' =>
      if (c =? sep)%char then EmptyString :: split s' sep
      else match split s' sep with
           | [] => [String c EmptyString]
           | w :: ws => String c w :: ws
           end
  end.

(** [l[-1]] of a list that [split] returned. *)
Definition last_item (l : list string) : string := List.last l EmptyString.

(** [l[:-1]] *)
Definition but_last {A} (l : list A) : list A := List.removelast l.

(** [sep.join(l)] *)
Definition join (sep : string) (l : list string) : string := String.concat sep l.

End Py.

Import Py.

(** ** The record model, the same in both scripts *)

Inductive ContentType : Type := mod_ | resourcepack | datapack | shader.

Record Content : Type := mkContent {
  url : string;
  name : string;
  version : string;
  type : ContentType
}.

Record SyncData : Type := mkSyncData {
  sync_version : Z;
  contents : list Content
}.

(** [SyncData(contents)], with the default schema version. *)
Definition SyncData_init (cs : list Content) : SyncData := mkSyncData 3 cs.

Definition add_content (d : SyncData) (c : Content) : SyncData :=
  mkSyncData (sync_version d) (contents d ++ [c]).

(** ** More of the Python run time: errors, dictionaries, integers *)

Module PyRt.

Definition bind {A B} (m : result A) (k : A -> result B) : result B :=
  match m with
  | Return a => k a
  | Raise e => Raise e
  end.

(** A [dict] keeps its keys in insertion order; assigning to a key that
    is already there keeps its place. *)
Definition dict (V : Type) : Type := list (string * V).

Fixpoint dict_get {V} (d : dict V) (k : string) : option V :=
  match d with
  | [] => None
  | (k', v) :: d' => if (k' =? k)%string then Some v else dict_get d' k
  end.

(** [d[k] = v] *)
Fixpoint dict_set {V} (d : dict V) (k : string) (v : V) : dict V :=
  match d with
  | [] => [(k, v)]
  | (k', v') :: d' =>
      if (k' =? k)%string then (k', v) :: d' else (k', v') :: dict_set d' k v
  end.

(** [k in d] *)
Definition dict_contains {V} (d : dict V) (k : string) : bool :=
  match dict_get d k with Some _ => true | None => false end.

(** [d[k]] as an expression *)
Definition getitem {V} (d : dict V) (k : string) : result V :=
  match dict_get d k with
  | Some v => Return v
  | None => Raise (KeyError k)
  end.

(** [d.values()] *)
Definition dict_values {V} (d : dict V) : list V := map snd d.

(** [d.get(k, default)] on an optional field of a decoded JSON object. *)
Definition get_default {A} (field : option A) (default : A) : A :=
  match field with Some a => a | None => default end.

(** [int.from_bytes(bs, "big")] *)
Definition int_from_bytes_big (bs : list Byte.byte) : Z :=
  fold_left (fun acc b => acc * 256 + Z.of_N (Byte.to_N b)) bs 0.

Definition digit_char (d : N) : ascii := ascii_of_N (48 + d).

(** The decimal digits of [n] in front of [acc], most significant first. *)
Fixpoint str_digits (fuel : nat) (n : N) (acc : string) : string :=
  match fuel with
  | O => acc
  | S fuel' =>
      let acc' := String (digit_char (n mod 10)) acc in
      if (n <? 10)%N then acc' else str_digits fuel' (n / 10) acc'
  end.

(** [str(n)] of an [int]. *)
Definition str_int (n : Z) : string :=
  let m := Z.abs_N n in
  let ds := str_digits (S (N.to_nat (N.size m))) m EmptyString in
  if n <? 0 then String "-" ds else ds.

End PyRt.

Import PyRt.

Notation "x <- m ;; k" := (bind m (fun x => k))
  (at level 61, m at next level, right associativity).

(** ** static.py *)

Module Static.

(** An open [zipfile.ZipFile]: the path it was opened from and its
    members, name and content, in archive order. *)
Record ZipFile : Type := mkZipFile {
  filename : string;
  members : list (string * string)
}.

(** [archive.getinfo(name)]: the member named exactly [name], the last
    one when several share the name, or [KeyError]. *)
Definition getinfo (archive : ZipFile) (name : string) : result string :=
  match find (fun m => (fst m =? name)%string) (rev (members archive)) with
  | Some m => Return (snd m)
  | None =>
      Raise (KeyError ("There is no item named '" ++ name ++ "' in the archive"))
  end.

(** [archive.open(name, "r")]: the member's byte stream.  A member that
    is in the archive is taken to open; an encrypted or damaged member,
    for which [open] raises, is not modelled. *)
Definition zip_open (archive : ZipFile) (name : string) : result string :=
  getinfo archive name.

Definition paths_to_try : list string :=
  [ "fabric.mod.json";
    "quilt.mod.json";
    "META-INF/mods.toml";
    "META-INF/neoforge.mods.toml";
    "shaders/";
    "data/";
    "pack.mcmeta" ].

Definition manifests : list string :=
  [ "MANIFEST.MF";
    "META-INF/MANIFEST.MF" ].

(** The loop [for path in paths: try: archive.getinfo(path); return path
    except: pass]; [None] when it falls through. *)
Fixpoint first_present (archive : ZipFile) (paths : list string) : option string :=
  match paths with
  | [] => None
  | path :: rest =>
      match getinfo archive path with
      | Return _ => Some path
      | Raise _ => first_present archive rest
      end
  end.

(** A [Parser] instance. *)
Record Parser : Type := mkParser {
  file : string;
  correction : string;
  accept_mf : bool
}.

(** [Parser.__get_manifest] *)
Definition get_manifest (self : Parser) (archive : ZipFile) : result string :=
  match first_present archive paths_to_try with
  | Some path => Return path
  | None =>
      if negb (accept_mf self) then
        Raise (Exception ("No manifest found for the file " ++ filename archive ++ "."))
      else
        match first_present archive manifests with
        | Some mf => Return mf
        | None =>
            Raise (Exception
                     ("Absolutely no manifest found for the file " ++ filename archive ++ "."))
        end
  end.

(** [Parser.__get_name_from_path] *)
Definition get_name_from_path (path : string) : string :=
  join "" (but_last (split (last_item (split path "/"%char)) "."%char)).

(** [Parser.__get_rand_version], on the bytes [os.urandom(4)] returned. *)
Definition get_rand_version (urandom4 : list Byte.byte) : string :=
  str_int (int_from_bytes_big urandom4).

Section Configured.

(** The configuration block at the top of the script. *)
Variable url_base_path : string.

(** [Parser.__get_uri] *)
Definition get_uri (filename correction : string) : string :=
  let last_slash_index := rfind filename "/" in
  let relative_path :=
    if negb (last_slash_index =? -1) then
      let relative_path := slice_from filename (last_slash_index + 1) in
      if startswith relative_path "/" then slice_from relative_path 1
      else relative_path
    else filename in
  let correction :=
    if negb (len correction =? 0) then
      let correction :=
        if startswith correction "/" then slice_from correction 1
        else correction in
      if negb (endswith correction "/") then correction ++ "/" else correction
    else correction in
  url_base_path ++ correction ++ relative_path.

(** The decoders of the two structured manifests are library code:
    [json_load] is [json.load], [toml_load_mod0] is
    [toml.load(stream)['mods'][0]]; each returns the string fields of the
    decoded table, or raises. *)
Variable json_load : string -> result (dict string).
Variable toml_load_mod0 : string -> result (dict string).

(** [Parser.__parse_manifest]; [urandom4] is what [os.urandom(4)] returns
    when a version is synthesized. *)
Definition parse_manifest (self : Parser) (urandom4 : list Byte.byte)
    (archive : ZipFile) : result Content :=
  path <- get_manifest self archive ;;
  if negb (endswith path "/") then
    data_stream <- zip_open archive path ;;
    if endswith path ".json" then
      manifest <- json_load data_stream ;;
      name <- getitem manifest "name" ;;
      version <- getitem manifest "version" ;;
      let uri := get_uri (filename archive) (correction self) in
      Return (mkContent uri name version mod_)
    else if endswith path ".toml" then
      manifest <- toml_load_mod0 data_stream ;;
      name <- (if dict_contains manifest "displayName"
               then getitem manifest "displayName"
               else getitem manifest "modId") ;;
      version <- getitem manifest "version" ;;
      let uri := get_uri (filename archive) (correction self) in
      Return (mkContent uri name version mod_)
    else if endswith path ".mcmeta" then
      let uri := get_uri (filename archive) (correction self) in
      let name := get_name_from_path (filename archive) in
      let version := get_rand_version urandom4 in
      Return (mkContent uri name version resourcepack)
    else if endswith path ".MF" then
      let uri := get_uri (filename archive) (correction self) in
      let name := get_name_from_path (filename archive) in
      let version := get_rand_version urandom4 in
      Return (mkContent uri name version mod_)
    else Raise (Exception ("Unknown path: " ++ path))
  else
    if (path =? "shaders/")%string then
      let uri := get_uri (filename archive) (correction self) in
      let name := get_name_from_path (filename archive) in
      let version := get_rand_version urandom4 in
      Return (mkContent uri name version shader)
    else if (path =? "data/")%string then
      let uri := get_uri (filename archive) (correction self) in
      let name := get_name_from_path (filename archive) in
      let version := get_rand_version urandom4 in
      Return (mkContent uri name version datapack)
    else Raise (Exception ("Unknown path: " ++ path)).

(** The files on disk: [None] where nothing exists, otherwise the members
    of the archive, or [None] for a file that is not a zip archive. *)
Variable disk : string -> option (option (list (string * string))).

(** [Parser.__init__] *)
Definition Parser_init (file_path correction : string) (accept_mf : bool)
  : result Parser :=
  match disk file_path with
  | None => Raise (Exception (file_path ++ " does not exist"))
  | Some _ =>
      if negb (endswith file_path ".jar") && negb (endswith file_path ".zip") then
        Raise (Exception (file_path ++ " is not a .jar or .zip file"))
      else Return (mkParser file_path correction accept_mf)
  end.

(** [Parser.parse] *)
Definition parse (self : Parser) (urandom4 : list Byte.byte) : result Content :=
  match disk (file self) with
  | Some (Some ms) => parse_manifest self urandom4 (mkZipFile (file self) ms)
  | Some None => Raise (BadZipFile "File is not a zip file")
  | None => Raise (FileNotFoundError (file self))
  end.

End Configured.

(** The value the script ships with. *)
Definition default_url_base_path : string := "https://example.com/static/content/".

End Static.

(** ** modrinth_versions.py *)

Module Modrinth.

(** [data.splitlines()], on text whose characters are below 256: a line
    ends at LF, CR, CR LF, VT, FF, FS, GS, RS or NEL. *)
Definition is_line_boundary (c : ascii) : bool :=
  existsb (N.eqb (N_of_ascii c)) [10; 11; 12; 13; 28; 29; 30; 133]%N.

Fixpoint splitlines (s : string) : list string :=
  match s with
  | EmptyString => []
  | String c s' =>
      if is_line_boundary c then
        match c, s' with
        | "013"%char, String "010"%char s'' => EmptyString :: splitlines s''
        | _, _ => EmptyString :: splitlines s'
        end
      else
        match splitlines s' with
        | [] => [String c EmptyString]
        | w :: ws => String c w :: ws
        end
  end.

(** The decoded JSON objects of the registry.  A field read with
    [.get(key, default)] is optional; [id] is read by both loops as the
    key of a dictionary and is a string in every object the registry
    returns. *)
Record FileObj : Type := mkFileObj {
  f_primary : option bool;
  f_url : option string
}.

Record VersionObj : Type := mkVersionObj {
  v_id : string;
  v_project_id : option string;
  v_files : option (list FileObj);
  v_loaders : option (list string)
}.

Record ProjectObj : Type := mkProjectObj {
  p_id : string;
  p_title : option string;
  p_slug : option string
}.

(** What [requests.get] returns: status, body text and decoded body. *)
Record Response (A : Type) : Type := mkResponse {
  status_code : Z;
  text : string;
  json : A
}.
Arguments mkResponse {A}.
Arguments status_code {A}.
Arguments text {A}.
Arguments json {A}.

(** The entry [{"url": ..., "type": ...}] kept per version. *)
Record FileInfo : Type := mkFileInfo {
  fi_url : string;
  fi_type : ContentType
}.

(** What outlives a call: the class attribute [Parser.id_map], one
    dictionary shared by every instance, and the lines printed so far. *)
Record World : Type := mkWorld {
  id_map : dict string;
  stdout : list string
}.

(** Computations that read and write the [World] and may raise; what was
    written before a raise stays written. *)
Definition M (A : Type) : Type := World -> result A * World.

Definition ret {A} (a : A) : M A := fun w => (Return a, w).

Definition mbind {A B} (m : M A) (k : A -> M B) : M B :=
  fun w =>
    match m w with
    | (Return a, w') => k a w'
    | (Raise e, w') => (Raise e, w')
    end.

Definition lift {A} (r : result A) : M A := fun w => (r, w).

Definition get_id_map : M (dict string) := fun w => (Return (id_map w), w).

Definition put_id_map (d : dict string) : M unit :=
  fun w => (Return tt, mkWorld d (stdout w)).

Definition print (line : string) : M unit :=
  fun w => (Return tt, mkWorld (id_map w) (stdout w ++ [line])).

Notation "x <~ m ;; k" := (mbind m (fun x => k))
  (at level 61, m at next level, right associativity).

(** A [Parser] instance; [id_map] is not among its own attributes. *)
Record Parser : Type := mkParser {
  path : string;
  versions : list string
}.

(** [x in [a, b, ...]] *)
Definition in_list (x : string) (l : list string) : bool :=
  existsb (String.eqb x) l.

(** [Parser.__get_project_type] *)
Fixpoint get_project_type (loaders : list string) : ContentType :=
  match loaders with
  | [] => mod_
  | loader :: rest =>
      if in_list loader ["fabric"; "quilt"; "forge"; "neoforge"] then mod_
      else if in_list loader ["iris"; "optifine"] then shader
      else if (loader =? "datapack")%string then datapack
      else if (loader =? "minecraft")%string then resourcepack
      else get_project_type rest
  end.

(** The inner loop of [__get_versions_files]: the URL of the first file
    whose [primary] is truthy, [""] when there is none. *)
Fixpoint primary_file_url (files : list FileObj) : string :=
  match files with
  | [] => ""
  | file :: rest =>
      if get_default (f_primary file) false then get_default (f_url file) ""
      else primary_file_url rest
  end.

(** One turn of the loop over [versions_info]. *)
Definition record_version (acc : dict string * dict FileInfo) (version : VersionObj)
  : dict string * dict FileInfo :=
  let '(idm, files) := acc in
  let version_id := v_id version in
  let idm := dict_set idm version_id (get_default (v_project_id version) "") in
  let file_url := primary_file_url (get_default (v_files version) []) in
  (idm,
   dict_set files version_id
     (mkFileInfo file_url (get_project_type (get_default (v_loaders version) [])))).

(** One turn of the loop over [projects]. *)
Definition record_project (projects_info : dict string) (project : ProjectObj)
  : dict string :=
  let project_id := p_id project in
  let project_name :=
    get_default (p_title project) (get_default (p_slug project) "UNKNOWN") in
  dict_set projects_info project_id project_name.

Section Registry.

(** The registry: the response to [GET versions?ids=...] and to
    [GET projects?ids=...], as a function of the identifiers asked for. *)
Variable get_versions : list string -> Response (list VersionObj).
Variable get_projects : list string -> Response (list ProjectObj).

(** The text files on disk: what [f.read()] returns for the file at a
    path, [None] where [open] fails. *)
Variable files_on_disk : string -> option string.

(** [Parser.__read_file] *)
Definition read_file (path : string) : M (list string) :=
  match files_on_disk path with
  | Some data => ret (splitlines data)
  | None => lift (Raise (FileNotFoundError path))
  end.

(** [Parser.__init_id_map] *)
Definition init_id_map (self : Parser) : M unit :=
  idm <~ get_id_map ;;
  put_id_map (fold_left (fun d version => dict_set d version "") (versions self) idm).

(** [Parser.__init__] *)
Definition Parser_init (path : string) : M Parser :=
  versions <~ read_file path ;;
  let self := mkParser path versions in
  _ <~ init_id_map self ;;
  ret self.

(** [Parser.__get_versions_files] *)
Definition get_versions_files (self : Parser) : M (dict FileInfo) :=
  let response := get_versions (versions self) in
  if status_code response =? 200 then
    idm <~ get_id_map ;;
    let '(idm', files) := fold_left record_version (json response) (idm, []) in
    _ <~ put_id_map idm' ;;
    ret files
  else
    _ <~ print ("Failed to fetch versions info: " ++ str_int (status_code response)
                ++ ", " ++ text response) ;;
    ret [].

(** [Parser.__get_projects_info] *)
Definition get_projects_info (self : Parser) : M (dict string) :=
  idm <~ get_id_map ;;
  let project_ids := filter (fun id => negb (id =? "")%string) (dict_values idm) in
  let response := get_projects project_ids in
  if status_code response =? 200 then
    ret (fold_left record_project (json response) [])
  else
    _ <~ print ("Failed to fetch projects info: " ++ str_int (status_code response)
                ++ ", " ++ text response) ;;
    ret [].

(** The loop of [Parser.parse] over [self.versions], from the records
    appended so far. *)
Fixpoint parse_loop (files_info : dict FileInfo) (projects_info : dict string)
    (vs : list string) (contents : list Content) : M (list Content) :=
  match vs with
  | [] => ret contents
  | version :: rest =>
      if dict_contains files_info version then
        info <~ lift (getitem files_info version) ;;
        let url := fi_url info in
        let type := fi_type info in
        idm <~ get_id_map ;;
        project_id <~ lift (getitem idm version) ;;
        name <~ lift (getitem projects_info project_id) ;;
        parse_loop files_info projects_info rest
          (contents ++ [mkContent url name version type])
      else parse_loop files_info projects_info rest contents
  end.

(** [Parser.parse] *)
Definition parse (self : Parser) : M SyncData :=
  files_info <~ get_versions_files self ;;
  projects_info <~ get_projects_info self ;;
  contents <~ parse_loop files_info projects_info (versions self) [] ;;
  ret (SyncData_init contents).

End Registry.

(** The interpreter state a process starts in. *)
Definition fresh_world : World := mkWorld [] [].

End Modrinth.

(** ** Vocabulary of the specification *)

Module Spec.

(** The final path segment: what follows the last ["/"]. *)
Definition basename (path : string) : string := last_item (split path "/"%char).

(** The character occurs in the string. *)
Fixpoint contains_char (c : ascii) (s : string) : bool :=
  match s with
  | EmptyString => false
  | String a s' => (a =? c)%char || contains_char c s'
  end.

Definition no_leading_slash (s : string) : Prop := startswith s "/" = false.

Definition one_trailing_slash (s : string) : Prop :=
  endswith s "/" = true /\ endswith s "//" = false.

(** The archive has a member of exactly this name. *)
Definition is_member (archive : Static.ZipFile) (name : string) : bool :=
  existsb (fun m => (fst m =? name)%string) (Static.members archive).

(** The value of a non-empty string of decimal digits. *)
Definition digit_of_char (c : ascii) : option N :=
  let n := N_of_ascii c in
  if ((48 <=? n) && (n <=? 57))%N then Some (n - 48)%N else None.

Fixpoint decimal_value_from (acc : N) (s : string) : option N :=
  match s with
  | EmptyString => Some acc
  | String c s' =>
      match digit_of_char c with
      | Some d => decimal_value_from (acc * 10 + d) s'
      | None => None
      end
  end.

Definition decimal_value (s : string) : option N :=
  match s with
  | EmptyString => None
  | _ => decimal_value_from 0 s
  end.

(** The priority table of loader tags. *)
Definition loader_table : list (string * ContentType) :=
  [ ("fabric", mod_); ("quilt", mod_); ("forge", mod_); ("neoforge", mod_);
    ("iris", shader); ("optifine", shader);
    ("datapack", datapack);
    ("minecraft", resourcepack) ].

(** The outcome the table gives a tag, if it lists the tag. *)
Definition loader_outcome (tag : string) : option ContentType :=
  option_map snd (find (fun e => (fst e =? tag)%string) loader_table).

End Spec.

Import Spec.

(** ** A small registry to run the remote resolver against *)

Module Scenario.

Import Modrinth.

Definition newline : string := String "010" EmptyString.

(** [versions.txt] with the two identifiers [V1] and [V2], and
    [more.txt] with [V3]. *)
Definition files_on_disk (path : string) : option string :=
  if (path =? "versions.txt")%string
  then Some ("V1" ++ newline ++ "V2" ++ newline)
  else if (path =? "more.txt")%string
  then Some ("V3" ++ newline)
  else None.

Definition V1 : VersionObj :=
  mkVersionObj "V1" (Some "P1")
    (Some [ mkFileObj (Some false) (Some "https://cdn.example/v1-sources.jar");
            mkFileObj (Some true) (Some "https://cdn.example/v1.jar") ])
    (Some ["fabric"]).

Definition V2 : VersionObj :=
  mkVersionObj "V2" (Some "P2")
    (Some [ mkFileObj (Some true) (Some "https://cdn.example/v2.zip") ])
    (Some ["iris"]).

Definition P1 : ProjectObj := mkProjectObj "P1" (Some "Project One") (Some "project-one").

(** A registry that answers 200 with the objects it knows among those
    asked for. *)
Definition versions_known (known : list VersionObj) (ids : list string)
  : Response (list VersionObj) :=
  mkResponse 200 "" (filter (fun o => in_list (v_id o) ids) known).

Definition projects_known (known : list ProjectObj) (ids : list string)
  : Response (list ProjectObj) :=
  mkResponse 200 "" (filter (fun o => in_list (p_id o) ids) known).

(** An endpoint that is down. *)
Definition unavailable {A} (ids : list string) : Response (list A) :=
  mkResponse 503 "Service Unavailable" [].

(** The instance and the world that [Parser("versions.txt")] gives in a
    fresh process. *)
Definition parser : Parser := mkParser "versions.txt" ["V1"; "V2"].
Definition world : World := mkWorld [("V1", ""); ("V2", "")] [].

End Scenario.

(** ** More vocabulary: what the located manifest stands for *)

Module Kinds.

(** The content type a manifest path stands for by itself. *)
Definition manifest_type (path : string) : ContentType :=
  if (path =? "shaders/")%string then shader
  else if (path =? "data/")%string then datapack
  else if (path =? "pack.mcmeta")%string then resourcepack
  else mod_.

(** Files the directory scan looks at. *)
Definition is_archive_name (file : string) : bool :=
  endswith file ".jar" || endswith file ".zip".

End Kinds.

Import Kinds.

(** ** More vocabulary: registry responses and text files *)

Module Lookup.

Import Modrinth.

(** The last object of a response that carries the identifier. *)
Definition last_version (resp : list VersionObj) (id : string) : option VersionObj :=
  find (fun o => (v_id o =? id)%string) (rev resp).

Definition last_project (resp : list ProjectObj) (id : string) : option ProjectObj :=
  find (fun o => (p_id o =? id)%string) (rev resp).

(** The string holds no character that ends a line. *)
Fixpoint no_line_boundary (s : string) : bool :=
  match s with
  | EmptyString => true
  | String c s' => negb (is_line_boundary c) && no_line_boundary s'
  end.



End Lookup.

Import Lookup.

(** ** json.dumps, as far as the two scripts use it *)

Module Json.

(** The double quote. *)
Definition quote : string := String "034" EmptyString.

(** The backslash. *)
Definition backslash : string := String "092" EmptyString.

(** A hexadecimal digit, in lower case. *)
Definition hex_digit (n : N) : ascii :=
  if (n <? 10)%N then ascii_of_N (48 + n) else ascii_of_N (87 + n).

(** What [json.dumps] writes for one character of a string, with
    [ensure_ascii] on; characters are below 256 here. *)
Definition escape_char (c : ascii) : string :=
  let n := N_of_ascii c in
  if (n =? 34)%N then backslash ++ quote
  else if (n =? 92)%N then backslash ++ backslash
  else if (n =? 10)%N then backslash ++ "n"
  else if (n =? 13)%N then backslash ++ "r"
  else if (n =? 9)%N then backslash ++ "t"
  else if (n =? 8)%N then backslash ++ "b"
  else if (n =? 12)%N then backslash ++ "f"
  else if ((32 <=? n) && (n <=? 126))%N then String c EmptyString
  else backslash ++ "u00"
       ++ String (hex_digit (n / 16)) (String (hex_digit (n mod 16)) EmptyString).

Fixpoint escape (s : string) : string :=
  match s with
  | EmptyString => EmptyString
  | String c s' => escape_char c ++ escape s'
  end.

(** [json.dumps(s)] of a [str]. *)
Definition dumps_str (s : string) : string := quote ++ escape s ++ quote.

(** [json.dumps] of a list whose items are already written. *)
Definition dumps_list (items : list string) : string :=
  "[" ++ join ", " items ++ "]".

(** [json.dumps] of a dictionary with string values. *)
Definition dumps_dict (d : dict string) : string :=
  "{" ++ join ", " (map (fun kv => dumps_str (fst kv) ++ ": " ++ dumps_str (snd kv)) d)
  ++ "}".

(** [type.name] of a member of the enumeration. *)
Definition type_name (t : ContentType) : string :=
  match t with
  | mod_ => "mod"
  | resourcepack => "resourcepack"
  | datapack => "datapack"
  | shader => "shader"
  end.

(** [Content.__dict__] *)
Definition Content_dict (c : Content) : dict string :=
  [ ("url", url c); ("name", name c); ("version", version c);
    ("type", type_name (type c)) ].

(** [Content.__str__] *)
Definition Content_str (c : Content) : string :=
  "Content(url=" ++ url c ++ ", name=" ++ name c ++ ", version=" ++ version c
  ++ ", type=ContentType." ++ type_name (type c) ++ ")".

(** [SyncData.to_json] *)
Definition to_json (d : SyncData) : string :=
  "{" ++ dumps_str "sync_version" ++ ": " ++ str_int (sync_version d) ++ ", "
  ++ dumps_str "sync" ++ ": "
  ++ dumps_list (map (fun content => dumps_dict (Content_dict content)) (contents d))
  ++ "}".

(** [print(a, b, ...)]: the arguments with one space between them. *)
Definition print_args (args : list string) : string := join " " args.

End Json.

Import Json.

(** ** Reading JSON strings back *)

Module JsonSpec.

Definition hex_value (c : ascii) : option N :=
  let n := N_of_ascii c in
  if ((48 <=? n) && (n <=? 57))%N then Some (n - 48)%N
  else if ((97 <=? n) && (n <=? 102))%N then Some (n - 87)%N
  else if ((65 <=? n) && (n <=? 70))%N then Some (n - 55)%N
  else None.

(** The character a two-character escape stands for. *)
Definition short_escape (c : ascii) : option ascii :=
  let n := N_of_ascii c in
  if (n =? 34)%N then Some "034"%char
  else if (n =? 92)%N then Some "092"%char
  else if (n =? 47)%N then Some "047"%char
  else if (n =? 110)%N then Some "010"%char
  else if (n =? 114)%N then Some "013"%char
  else if (n =? 116)%N then Some "009"%char
  else if (n =? 98)%N then Some "008"%char
  else if (n =? 102)%N then Some "012"%char
  else None.

Definition printable (c : ascii) : bool :=
  let n := N_of_ascii c in ((32 <=? n) && (n <=? 126))%N.

(** The text between the quotes of a JSON string, decoded; [None] when
    it is not the inside of a JSON string of characters below 256. *)
Fixpoint unescape (s : string) : option string :=
  match s with
  | EmptyString => Some EmptyString
  | String c rest =>
      if (N_of_ascii c =? 92)%N then
        match rest with
        | EmptyString => None
        | String e rest' =>
            if (N_of_ascii e =? 117)%N then
              match rest' with
              | String h1 (String h2 (String h3 (String h4 rest''))) =>
                  match hex_value h1, hex_value h2, hex_value h3, hex_value h4 with
                  | Some a, Some b, Some c', Some d =>
                      let n := (((a * 16 + b) * 16 + c') * 16 + d)%N in
                      if (n <? 256)%N
                      then option_map (String (ascii_of_N n)) (unescape rest'')
                      else None
                  | _, _, _, _ => None
                  end
              | _ => None
              end
            else
              match short_escape e with
              | Some ch => option_map (String ch) (unescape rest')
              | None => None
              end
        end
      else if (N_of_ascii c =? 34)%N then None
      else if printable c then option_map (String c) (unescape rest)
      else None
  end.

Fixpoint all_printable (s : string) : bool :=
  match s with
  | EmptyString => true
  | String c s' => printable c && all_printable s'
  end.

End JsonSpec.

Import JsonSpec.

(** ** static.py: [main] *)

Module StaticMain.

Import Static.

(** What a run has built up: the collection, the lines printed, and how
    many archives it has opened. *)
Record Run : Type := mkRun {
  sync_data : SyncData;
  printed : list string;
  parses : nat
}.

(** How a run ends: the lines printed, the text written to the output
    file if it was written, and the exception that ended the run if one
    did. *)
Record Outcome : Type := mkOutcome {
  out_printed : list string;
  out_written : option string;
  out_raised : option exn
}.

Section Run.

(** The configuration block. *)
Variable url_base_path : string.
Variable working_directories : list string.
Variable working_directory_to_url_override : dict string.
Variable accept_mfs : bool.

(** The libraries and the machine: the two decoders, the files on disk,
    [os.listdir], the bytes [os.urandom(4)] gives to the k-th archive
    opened, and [str(e)] of an exception. *)
Variable json_load toml_load_mod0 : string -> result (dict string).
Variable disk : string -> option (option (list (string * string))).
Variable listdir : string -> result (list string).
Variable urandom : nat -> list Byte.byte.
Variable str_exn : exn -> string.

(** [working_directory + "/"] unless it ends with a slash already. *)
Definition fixed_path (working_directory : string) : string :=
  if negb (endswith working_directory "/") then working_directory ++ "/"
  else working_directory.

(** The body of the inner [try]: parse, then keep and print the record,
    or print the exception. *)
Definition parse_one (parser : Parser) (run : Run) : Run :=
  match parse url_base_path json_load toml_load_mod0 disk parser
          (urandom (parses run)) with
  | Return content =>
      mkRun (add_content (sync_data run) content)
        (printed run ++ [Content_str content]) (S (parses run))
  | Raise e =>
      mkRun (sync_data run) (printed run ++ [str_exn e]) (S (parses run))
  end.

(** The loop over the files of one directory; the exception, if any, is
    the one that leaves the loop for the outer [try]. *)
Fixpoint scan_files (working_directory correction : string) (files : list string)
    (run : Run) : Run * option exn :=
  match files with
  | [] => (run, None)
  | file :: rest =>
      if endswith file ".jar" || endswith file ".zip" then
        let file_path := fixed_path working_directory ++ file in
        match Parser_init disk file_path correction accept_mfs with
        | Return parser =>
            scan_files working_directory correction rest (parse_one parser run)
        | Raise e => (run, Some e)
        end
      else scan_files working_directory correction rest run
  end.

(** The handler of the outer [try]. *)
Definition report_directory (working_directory : string) (e : exn) (run : Run) : Run :=
  mkRun (sync_data run)
    (printed run
     ++ [print_args ["Error parsing files in "; working_directory; " ignoring: ";
                     str_exn e]])
    (parses run).

(** The loop over the working directories; the exception, if any, is
    the one nothing catches. *)
Fixpoint scan_directories (directories : list string) (run : Run) : Run * option exn :=
  match directories with
  | [] => (run, None)
  | working_directory :: rest =>
      match getitem working_directory_to_url_override working_directory with
      | Raise e => (run, Some e)
      | Return correction =>
          let run' :=
            match listdir working_directory with
            | Raise e => report_directory working_directory e run
            | Return files =>
                match scan_files working_directory correction files run with
                | (run1, None) => run1
                | (run1, Some e) => report_directory working_directory e run1
                end
            end in
          scan_directories rest run'
      end
  end.

(** [main]; writing the output file is taken to succeed. *)
Definition main : Outcome :=
  match scan_directories working_directories (mkRun (SyncData_init []) [] 0) with
  | (run, None) =>
      mkOutcome (printed run ++ ["Done"]) (Some (to_json (sync_data run))) None
  | (run, Some e) => mkOutcome (printed run) None (Some e)
  end.

(** The archives a run opens, in the order it opens them, with the
    correction of their directory: the [.jar] and [.zip] entries of every
    directory that has a correction and can be listed. *)
Definition jobs_of (working_directory : string) : list (string * string) :=
  match dict_get working_directory_to_url_override working_directory,
        listdir working_directory with
  | Some correction, Return files =>
      map (fun file => (fixed_path working_directory ++ file, correction))
        (filter is_archive_name files)
  | _, _ => []
  end.

Definition jobs : list (string * string) := flat_map jobs_of working_directories.

(** The records of the jobs that parse, the k-th job drawing the k-th
    random bytes. *)
Fixpoint records_from (k : nat) (js : list (string * string)) : list Content :=
  match js with
  | [] => []
  | (file_path, correction) :: rest =>
      match parse url_base_path json_load toml_load_mod0 disk
              (mkParser file_path correction accept_mfs) (urandom k) with
      | Return content => content :: records_from (S k) rest
      | Raise _ => records_from (S k) rest
      end
  end.

End Run.

End StaticMain.

(** ** modrinth_versions.py: [main] *)

Module ModrinthMain.

Import Modrinth.

Section Run.

(** The configuration block. *)
Variable input_file : string.
Variable output_file : string.

Variable get_versions : list string -> Response (list VersionObj).
Variable get_projects : list string -> Response (list ProjectObj).
Variable files_on_disk : string -> option string.
Variable str_exn : exn -> string.

(** The [try] block and its handler: the text written to the output
    file, or [None] when the file is not opened. *)
Definition generate (parser : Parser) : M (option string) :=
  fun w =>
    match parse get_versions get_projects parser w with
    | (Return sync_data, w') => (Return (Some (to_json sync_data)), w')
    | (Raise e, w') =>
        match print (print_args ["Failed to generate sync file:"; str_exn e]) w' with
        | (_, w'') => (Return None, w'')
        end
    end.

(** [main]; writing the output file is taken to succeed.  It returns the
    text written, if any. *)
Definition main : M (option string) :=
  _ <~ print (print_args ["Reading versions from"; input_file]) ;;
  parser <~ Parser_init files_on_disk input_file ;;
  _ <~ print (print_args ["Generating sync file"; output_file]) ;;
  written <~ generate parser ;;
  _ <~ print "Done" ;;
  ret written.

End Run.

End ModrinthMain.

(** ** A small disk to run the directory scan against *)

Module StaticScenario.

Definition working_directories : list string := ["./"; "./another/directory/"].

Definition working_directory_to_url_override : dict string :=
  [("./", ""); ("./another/directory/", "/backup")].

Definition listdir (directory : string) : result (list string) :=
  if (directory =? "./")%string
  then Return ["sodium.jar"; "notes.txt"; "broken.zip"]
  else if (directory =? "./another/directory/")%string
  then Return ["sky.zip"]
  else Raise (FileNotFoundError directory).

(** [ghost.jar] is listed but is not there; [broken.zip] is no archive. *)
Definition disk (file_path : string) : option (option (list (string * string))) :=
  if (file_path =? "./sodium.jar")%string
  then Some (Some [("fabric.mod.json", "")])
  else if (file_path =? "./broken.zip")%string
  then Some None
  else if (file_path =? "./late.jar")%string
  then Some (Some [("fabric.mod.json", "")])
  else if (file_path =? "./another/directory/sky.zip")%string
  then Some (Some [("shaders/", "")])
  else None.

Definition json_load (data : string) : result (dict string) :=
  Return [("name", "Sodium"); ("version", "0.5.3")].

Definition toml_load_mod0 (data : string) : result (dict string) :=
  Raise (Exception "Invalid statement").

Definition urandom (k : nat) : list Byte.byte :=
  [Byte.x00; Byte.x00; Byte.x00; Byte.x2a].

Definition str_exn (e : exn) : string :=
  match e with
  | KeyError key => "'" ++ key ++ "'"
  | FileNotFoundError path => "[Errno 2] No such file or directory: '" ++ path ++ "'"
  | BadZipFile msg => msg
  | Exception msg => msg
  end.

End StaticScenario.

(** ** Facts about the modelled built-ins *)

Module PyFacts.


Lemma append_assoc (s t u : string) : (s ++ t) ++ u = s ++ (t ++ u).
Proof. induction s as [|a s IH]; simpl; [reflexivity | now rewrite IH]. Qed.

Lemma length_append (s t : string) :
  String.length (s ++ t) = (String.length s + String.length t)%nat.
Proof. induction s as [|a s IH]; simpl; [reflexivity | now rewrite IH]. Qed.

Lemma append_inv_head (s t u : string) : s ++ t = s ++ u -> t = u.
Proof.
  induction s as [|a s IH]; simpl; intros H; [exact H|].
  injection H as H. now apply IH.
Qed.

Lemma append_inv_tail (t s u : string) : s ++ t = u ++ t -> s = u.
Proof.
  revert u. induction s as [|a s IH]; intros [|b u] H; simpl in H.
  - reflexivity.
  - apply (f_equal String.length) in H. simpl in H.
    rewrite length_append in H. lia.
  - apply (f_equal String.length) in H. simpl in H.
    rewrite length_append in H. lia.
  - injection H as -> H. f_equal. now apply IH.
Qed.

(** [endswith] is the suffix relation. *)
Lemma endswith_iff (s p : string) :
  endswith s p = true <-> exists t, s = t ++ p.
Proof.
  induction s as [|a s IH]; cbn [endswith].
  - rewrite orb_false_r, String.eqb_eq. split.
    + intros <-. now exists "".
    + intros [[|b t] H]; simpl in H; [assumption | discriminate].
  - rewrite orb_true_iff, String.eqb_eq, IH. split.
    + intros [<- | [t ->]]; [now exists "" | now exists (String a t)].
    + intros [[|b t] H]; simpl in H; [now left|].
      injection H as -> ->. right. now exists t.
Qed.

Lemma endswith_append (t p : string) : endswith (t ++ p) p = true.
Proof. apply endswith_iff. now exists t. Qed.

Lemma startswith_slash (a : ascii) (s : string) :
  startswith (String a s) "/" = (a =? "/")%char.
Proof.
  unfold startswith. cbn [String.prefix].
  destruct (ascii_dec "/" a) as [<- | N].
  - now destruct s.
  - symmetry. apply Ascii.eqb_neq. congruence.
Qed.

Lemma rfind_lower (s sub : string) : -1 <= rfind s sub.
Proof.
  induction s as [|a s IH]; cbn [rfind].
  - destruct (String.prefix sub ""); lia.
  - destruct (negb (rfind s sub =? -1)); [lia|].
    destruct (String.prefix sub (String a s)); lia.
Qed.

(** How [rfind], [split] and slicing agree on the last ["/"]: either
    there is none and the string is its own single segment, or the text
    after the last one is the last of at least two segments. *)
Lemma rfind_split_slash (s : string) :
  (rfind s "/" = -1 /\ split s "/" = [s]) \/
  (0 <= rfind s "/" /\
   exists w ws, split s "/" = w :: ws /\ ws <> [] /\
     drop (Z.to_nat (rfind s "/" + 1)) s = List.last ws "").
Proof.
  induction s as [|a s IH].
  - left. now split.
  - cbn [rfind split]. fold (startswith (String a s) "/").
    rewrite startswith_slash.
    destruct IH as [[Hr Hs] | [Hr (w & ws & Hs & Hne & Hd)]].
    + rewrite Hr, Hs. simpl negb. cbv iota.
      destruct (a =? "/")%char eqn:Ea.
      * right. split; [lia|]. exists "", [s].
        split; [reflexivity | split; [discriminate | reflexivity]].
      * left. now split.
    + assert (E : (rfind s "/" =? -1) = false) by (apply Z.eqb_neq; lia).
      rewrite E, Hs. simpl negb. cbv iota.
      assert (Hd' : drop (Z.to_nat (rfind s "/" + 1 + 1)) (String a s)
                    = List.last ws "").
      { replace (Z.to_nat (rfind s "/" + 1 + 1))
          with (S (Z.to_nat (rfind s "/" + 1))) by lia.
        exact Hd. }
      right. split; [lia|].
      destruct (a =? "/")%char.
      * exists "", (w :: ws).
        split; [reflexivity | split; [discriminate|]].
        rewrite Hd'. destruct ws; [contradiction | reflexivity].
      * exists (String a w), ws.
        split; [reflexivity | split; assumption].
Qed.

(** No segment that [split] returns contains the separator. *)
Lemma split_segments_no_slash (s : string) :
  Forall (fun w => rfind w "/" = -1) (split s "/").
Proof.
  induction s as [|a s IH]; cbn [split].
  - now repeat constructor.
  - destruct (a =? "/")%char eqn:Ea.
    + constructor; [reflexivity | exact IH].
    + destruct (split s "/") as [|w ws].
      * repeat constructor. cbn [rfind]. simpl negb. cbv iota.
        fold (startswith (String a "") "/"). now rewrite startswith_slash, Ea.
      * inversion IH as [|? ? Hw Hws]; subst. constructor; [|exact Hws].
        cbn [rfind]. rewrite Hw. simpl negb. cbv iota.
        fold (startswith (String a w) "/"). now rewrite startswith_slash, Ea.
Qed.

Lemma split_nonempty (s : string) (sep : ascii) : split s sep <> [].
Proof.
  destruct s as [|a s]; cbn [split]; [discriminate|].
  destruct (a =? sep)%char; [discriminate|].
  destruct (split s sep); discriminate.
Qed.

Lemma no_slash_not_startswith (s : string) :
  rfind s "/" = -1 -> startswith s "/" = false.
Proof.
  destruct s as [|a s]; [reflexivity|].
  cbn [rfind]. fold (startswith (String a s) "/").
  pose proof (rfind_lower s "/").
  destruct (rfind s "/" =? -1) eqn:E; simpl negb; cbv iota.
  - destruct (startswith (String a s) "/"); [discriminate | reflexivity].
  - apply Z.eqb_neq in E. lia.
Qed.

Lemma rfind_slash_contains (s : string) :
  rfind s "/" = -1 <-> contains_char "/" s = false.
Proof.
  induction s as [|a s IH]; [now split|].
  cbn [rfind contains_char]. fold (startswith (String a s) "/").
  rewrite startswith_slash. pose proof (rfind_lower s "/") as L.
  destruct (rfind s "/" =? -1) eqn:E; simpl negb; cbv iota.
  - apply Z.eqb_eq in E. destruct IH as [IH _]. rewrite (IH E).
    destruct (a =? "/")%char; split; (discriminate || reflexivity).
  - apply Z.eqb_neq in E. split; [lia|].
    rewrite orb_false_iff. intros [_ C]. now apply IH in C.
Qed.

Lemma contains_char_append (c : ascii) (s t : string) :
  contains_char c (s ++ t) = contains_char c s || contains_char c t.
Proof.
  induction s as [|a s IH]; cbn [append contains_char]; [reflexivity|].
  now rewrite IH, orb_assoc.
Qed.

Lemma split_no_sep (s : string) (sep : ascii) :
  contains_char sep s = false -> split s sep = [s].
Proof.
  induction s as [|a s IH]; cbn [contains_char split]; [reflexivity|].
  rewrite orb_false_iff. intros [-> H]. now rewrite (IH H).
Qed.

Lemma split_at_sep (s t : string) (sep : ascii) :
  contains_char sep s = false ->
  split (s ++ String sep t) sep = s :: split t sep.
Proof.
  induction s as [|a s IH]; cbn [contains_char append split].
  - intros _. now rewrite Ascii.eqb_refl.
  - rewrite orb_false_iff. intros [-> H]. now rewrite (IH H).
Qed.

(** Splitting undoes joining pieces that are free of the separator. *)
Lemma split_join (pieces : list string) (sep : ascii) :
  pieces <> [] ->
  Forall (fun w => contains_char sep w = false) pieces ->
  split (join (String sep "") pieces) sep = pieces.
Proof.
  intros NE F. induction F as [|w ws Hw F IH]; [contradiction|].
  destruct ws as [|w' ws]; cbn [join concat].
  - now apply split_no_sep.
  - cbn [append]. rewrite (split_at_sep _ _ _ Hw). f_equal.
    apply IH. discriminate.
Qed.

End PyFacts.

(** ** static.py: URL correction, names, versions, manifest location *)

Module StaticFacts.

Import PyFacts Static.

Lemma basename_no_slash (path : string) : rfind (basename path) "/" = -1.
Proof.
  unfold basename, last_item.
  pose proof (split_segments_no_slash path) as F.
  pose proof (split_nonempty path "/") as NE.
  induction F as [|w ws Hw F IH]; [contradiction|].
  destruct ws as [|w' ws]; [exact Hw|].
  apply IH. discriminate.
Qed.

Lemma basename_of_segment (s : string) : rfind s "/" = -1 -> basename s = s.
Proof.
  intros H. unfold basename, last_item.
  destruct (rfind_split_slash s) as [[_ ->] | [Hr _]]; [reflexivity | lia].
Qed.

(** The first half of [get_uri] computes the final path segment; its
    test for a leading ["/"] never fires. *)
Lemma relative_path_basename (filename : string) :
  (if negb (rfind filename "/" =? -1) then
     if startswith (slice_from filename (rfind filename "/" + 1)) "/"
     then slice_from (slice_from filename (rfind filename "/" + 1)) 1
     else slice_from filename (rfind filename "/" + 1)
   else filename) = basename filename.
Proof.
  pose proof (basename_no_slash filename) as NS.
  unfold basename, last_item in *.
  destruct (rfind_split_slash filename) as [[Hr Hs] | [Hr (w & ws & Hs & Hne & Hd)]].
  - rewrite Hr, Hs. reflexivity.
  - assert (E : (rfind filename "/" =? -1) = false) by (apply Z.eqb_neq; lia).
    rewrite E. simpl negb. cbv iota.
    assert (Hsl : slice_from filename (rfind filename "/" + 1) = List.last ws "").
    { unfold slice_from.
      assert (L : (rfind filename "/" + 1 <? 0) = false) by (apply Z.ltb_ge; lia).
      now rewrite L. }
    rewrite Hs in *.
    assert (Hl : List.last (w :: ws) "" = List.last ws "")
      by (destruct ws; [contradiction | reflexivity]).
    rewrite Hl in *. rewrite Hsl.
    now rewrite (no_slash_not_startswith _ NS).
Qed.

Lemma get_uri_relative (url_base_path filename correction : string) :
  get_uri url_base_path filename correction =
  get_uri url_base_path (basename filename) correction.
Proof.
  unfold get_uri. cbv zeta.
  rewrite (relative_path_basename filename).
  rewrite (relative_path_basename (basename filename)).
  now rewrite (basename_of_segment _ (basename_no_slash filename)).
Qed.

Lemma rfind_nested (dir name : string) :
  rfind name "/" = -1 ->
  rfind (dir ++ "/" ++ name) "/" = Z.of_nat (String.length dir).
Proof.
  intros H. induction dir as [|a dir IH].
  - cbn [append rfind String.length]. rewrite H. simpl negb. cbv iota.
    fold (startswith (String "/" name) "/").
    now rewrite startswith_slash, Ascii.eqb_refl.
  - cbn [append rfind String.length] in IH |- *. rewrite IH.
    assert (E : (Z.of_nat (String.length dir) =? -1) = false)
      by (apply Z.eqb_neq; lia).
    rewrite E. simpl negb. cbv iota. lia.
Qed.

Lemma drop_nested (dir name : string) :
  drop (S (String.length dir)) (dir ++ "/" ++ name) = name.
Proof. induction dir as [|a dir IH]; [reflexivity | exact IH]. Qed.

(** A path made of a directory part, a slash and a slash-free name has
    that name as its final segment, however deep the directory part. *)
Lemma basename_nested (dir name : string) :
  rfind name "/" = -1 -> basename (dir ++ "/" ++ name) = name.
Proof.
  intros H. rewrite <- relative_path_basename, (rfind_nested _ _ H).
  assert (E : (Z.of_nat (String.length dir) =? -1) = false)
    by (apply Z.eqb_neq; lia).
  rewrite E. simpl negb. cbv iota.
  assert (Hs : slice_from (dir ++ "/" ++ name) (Z.of_nat (String.length dir) + 1)
               = name).
  { unfold slice_from.
    assert (L : (Z.of_nat (String.length dir) + 1 <? 0) = false)
      by (apply Z.ltb_ge; lia).
    rewrite L.
    replace (Z.to_nat (Z.of_nat (String.length dir) + 1))
      with (S (String.length dir)) by lia.
    apply drop_nested. }
  rewrite Hs. now rewrite (no_slash_not_startswith _ H).
Qed.

Lemma len_nonempty (a : ascii) (s : string) : (len (String a s) =? 0) = false.
Proof. apply Z.eqb_neq. unfold len. cbn [String.length]. lia. Qed.

Lemma slice_from_1 (a : ascii) (s : string) : slice_from (String a s) 1 = s.
Proof. reflexivity. Qed.

Lemma core_slash_no_leading (core : string) :
  core <> "" -> no_leading_slash core -> no_leading_slash (core ++ "/").
Proof.
  unfold no_leading_slash. destruct core as [|a core]; [contradiction|].
  intros _. cbn [append]. now rewrite !startswith_slash.
Qed.

Lemma core_slash_one_trailing (core : string) :
  endswith core "/" = false -> one_trailing_slash (core ++ "/").
Proof.
  intros H. split; [apply endswith_append|].
  destruct (endswith (core ++ "/") "//") eqn:E; [|reflexivity].
  apply endswith_iff in E. destruct E as [t E].
  change "//" with ("/" ++ "/") in E. rewrite <- append_assoc in E.
  apply append_inv_tail in E. subst core.
  now rewrite endswith_append in H.
Qed.

(** C6, as the code has it.  For every filename and every correction
    made of a non-empty core that neither begins nor ends with a slash,
    optionally preceded by one slash and optionally followed by one slash,
    the resolved URL is the base URL, then the core with exactly one
    trailing slash and no leading slash, then the bare filename; so
    ["/sub"], ["sub/"] and ["sub"] resolve ["x.jar"] to one URL ending in
    [sub/x.jar]. *)
Theorem get_uri_normalizes_correction
    (url_base_path filename core correction : string) :
  core <> "" ->
  no_leading_slash core ->
  endswith core "/" = false ->
  In correction [core; "/" ++ core; core ++ "/"; "/" ++ core ++ "/"] ->
  get_uri url_base_path filename correction
    = url_base_path ++ (core ++ "/") ++ basename filename
  /\ no_leading_slash (core ++ "/")
  /\ one_trailing_slash (core ++ "/")
  /\ get_uri url_base_path "x.jar" "/sub" = url_base_path ++ "sub/x.jar"
  /\ get_uri url_base_path "x.jar" "sub/" = url_base_path ++ "sub/x.jar"
  /\ get_uri url_base_path "x.jar" "sub" = url_base_path ++ "sub/x.jar".
Proof.
  intros Hne Hlead Htrail Hin.
  pose proof (core_slash_no_leading core Hne Hlead) as Hlead'.
  pose proof (core_slash_one_trailing core Htrail) as Htrail'.
  split; [|repeat split; solve [assumption | apply Htrail' | reflexivity]].
  unfold get_uri. cbv zeta. rewrite relative_path_basename.
  do 2 f_equal.
  destruct core as [|a core]; [contradiction|].
  unfold no_leading_slash in Hlead, Hlead'.
  destruct Htrail' as [Hends _].
  cbn [In] in Hin.
  destruct Hin as [<- | [<- | [<- | [<- | []]]]].
  - rewrite len_nonempty, Hlead, Htrail. reflexivity.
  - cbn [append]. rewrite len_nonempty, startswith_slash, Ascii.eqb_refl.
    rewrite slice_from_1, Htrail. reflexivity.
  - rewrite Hlead'. cbn [append] in Hends |- *.
    rewrite len_nonempty, Hends. reflexivity.
  - cbn [append] in Hends |- *.
    rewrite len_nonempty, startswith_slash, Ascii.eqb_refl.
    rewrite slice_from_1, Hends. reflexivity.
Qed.

Lemma get_uri_normalizes_correction_witness :
  get_uri default_url_base_path "dir/x.jar" "/sub"
    = default_url_base_path ++ ("sub" ++ "/") ++ basename "dir/x.jar".
Proof.
  apply (get_uri_normalizes_correction default_url_base_path "dir/x.jar" "sub" "/sub").
  - discriminate.
  - reflexivity.
  - reflexivity.
  - simpl. right. left. reflexivity.
Defined.

(** C6 as written fails: a correction that begins with two slashes keeps
    one of them, so no slash-trimmed form of it sits between the base URL
    and the bare filename. *)
Lemma get_uri_keeps_second_slash :
  ~ (exists c,
        no_leading_slash c /\ one_trailing_slash c /\
        get_uri default_url_base_path "x.jar" "//sub"
          = default_url_base_path ++ c ++ basename "x.jar").
Proof.
  intros (c & Hlead & _ & E).
  change (get_uri default_url_base_path "x.jar" "//sub")
    with (default_url_base_path ++ "/sub/" ++ "x.jar") in E.
  change (basename "x.jar") with "x.jar" in E.
  apply append_inv_head, append_inv_tail in E. subst c.
  discriminate Hlead.
Qed.

(** C7.  The resolved URL depends only on the final segment of the
    archive path: resolving a path and resolving its bare filename give
    the same URL for every correction, and ["a/b/c/mod.jar"] resolves as
    ["mod.jar"] does. *)
Theorem get_uri_depends_on_basename (url_base_path : string) :
  (forall path correction,
      get_uri url_base_path path correction
        = get_uri url_base_path (basename path) correction)
  /\ basename "a/b/c/mod.jar" = "mod.jar"
  /\ get_uri url_base_path "a/b/c/mod.jar" "" = get_uri url_base_path "mod.jar" ""
  /\ get_uri url_base_path "mod.jar" "" = url_base_path ++ "mod.jar".
Proof.
  split; [intros; apply get_uri_relative|].
  repeat split; reflexivity.
Qed.

(** X6.  What [get_name_from_path] computes: of a filename made of dot-free
    pieces and an extension, under any directory, the pieces run
    together. *)
Lemma get_name_from_path_pieces (dir ext : string) (pieces : list string) :
  Forall (fun w => contains_char "." w = false /\ contains_char "/" w = false)
    (pieces ++ [ext]) ->
  get_name_from_path (dir ++ "/" ++ join "." (pieces ++ [ext])) = join "" pieces.
Proof.
  intros F. unfold get_name_from_path.
  fold (basename (dir ++ "/" ++ join "." (pieces ++ [ext]))).
  rewrite basename_nested.
  - rewrite split_join.
    + unfold but_last. now rewrite removelast_last.
    + now destruct pieces.
    + eapply Forall_impl; [|exact F]. now intros w [H _].
  - apply rfind_slash_contains.
    assert (S : Forall (fun w => contains_char "/" w = false) (pieces ++ [ext]))
      by (eapply Forall_impl; [|exact F]; now intros w [_ H]).
    clear F. induction S as [|w ws Hw S IH]; [reflexivity|].
    destruct ws as [|w' ws]; cbn [join concat]; [exact Hw|].
    rewrite !contains_char_append, Hw. exact IH.
Qed.

(** C8, where the code departs from it.  The docstring's example holds,
    ["/path/to/file.jar"] gives ["file"]; but the pieces of the filename
    are joined with the empty string, so a stem with dots loses them:
    ["mods/my.mod.jar"] gives ["mymod"], not ["my.mod"]. *)
Theorem get_name_from_path_drops_stem_dots :
  get_name_from_path "/path/to/file.jar" = "file"
  /\ basename "mods/my.mod.jar" = "my.mod.jar"
  /\ get_name_from_path "mods/my.mod.jar" = "mymod"
  /\ get_name_from_path "mods/my.mod.jar" <> "my.mod".
Proof. repeat split; try reflexivity. discriminate. Qed.

(** *** Decimal rendering *)

Local Open Scope N_scope.

Lemma digit_of_digit_char (d : N) : d < 10 -> digit_of_char (digit_char d) = Some d.
Proof.
  intros H.
  assert (C : d = 0 \/ d = 1 \/ d = 2 \/ d = 3 \/ d = 4 \/ d = 5 \/ d = 6
              \/ d = 7 \/ d = 8 \/ d = 9) by lia.
  repeat (destruct C as [-> | C]; [reflexivity|]). now subst.
Qed.

Lemma str_digits_acc (fuel : nat) (n : N) (acc : string) :
  str_digits fuel n acc = (str_digits fuel n "" ++ acc)%string.
Proof.
  revert n acc. induction fuel as [|fuel IH]; intros n acc; cbn [str_digits].
  - reflexivity.
  - destruct (n <? 10); [reflexivity|].
    rewrite (IH _ (String _ acc)), (IH _ (String _ "")).
    now rewrite append_assoc.
Qed.

Lemma decimal_value_from_append (acc : N) (s t : string) :
  decimal_value_from acc (s ++ t) =
  match decimal_value_from acc s with
  | Some a => decimal_value_from a t
  | None => None
  end.
Proof.
  revert acc. induction s as [|c s IH]; intros acc; cbn [append decimal_value_from].
  - reflexivity.
  - destruct (digit_of_char c); [apply IH | reflexivity].
Qed.

(** With fuel for every binary digit, all decimal digits are written. *)
Lemma str_digits_value (fuel : nat) (n : N) :
  n < 2 ^ N.of_nat fuel ->
  decimal_value_from 0 (str_digits fuel n "") = Some n.
Proof.
  revert n. induction fuel as [|fuel IH]; intros n H.
  - cbn in H. assert (n = 0) by lia. now subst.
  - cbn [str_digits]. destruct (n <? 10) eqn:E.
    + apply N.ltb_lt in E. cbn [decimal_value_from].
      rewrite digit_of_digit_char by (apply N.mod_lt; lia).
      rewrite N.mod_small by lia. reflexivity.
    + apply N.ltb_ge in E.
      rewrite str_digits_acc, decimal_value_from_append.
      rewrite IH.
      * cbn [decimal_value_from].
        rewrite digit_of_digit_char by (apply N.mod_lt; lia).
        f_equal. pose proof (N.div_mod n 10). lia.
      * rewrite Nat2N.inj_succ, N.pow_succ_r' in H.
        apply N.Div0.div_lt_upper_bound. lia.
Qed.

Lemma str_digits_nonempty (fuel : nat) (n : N) (acc : string) :
  (String.length acc < String.length (str_digits (S fuel) n acc))%nat.
Proof.
  cbn [str_digits]. destruct (n <? 10); [cbn; lia|].
  rewrite str_digits_acc, length_append. cbn [String.length]. lia.
Qed.

Lemma str_digits_length (fuel : nat) (n : N) (acc : string) (k : nat) :
  (1 <= k)%nat -> n < 10 ^ N.of_nat k ->
  (String.length (str_digits fuel n acc) <= k + String.length acc)%nat.
Proof.
  revert n acc k. induction fuel as [|fuel IH]; intros n acc k Hk H;
    cbn [str_digits]; [lia|].
  destruct (n <? 10) eqn:E; [cbn [String.length]; lia|].
  apply N.ltb_ge in E.
  destruct k as [|[|k]]; [lia | cbn in H; lia |].
  etransitivity; [apply (IH _ _ (S k)); [lia|] | cbn [String.length]; lia].
  rewrite (Nat2N.inj_succ (S k)), N.pow_succ_r' in H.
  apply N.Div0.div_lt_upper_bound. lia.
Qed.

(** The first digit written is not a zero, unless the number is zero. *)
Lemma str_digits_leading (fuel : nat) (n : N) (acc : string) :
  0 < n -> n < 2 ^ N.of_nat fuel ->
  exists d rest, str_digits fuel n acc = String (digit_char d) rest /\ 1 <= d <= 9.
Proof.
  revert n acc. induction fuel as [|fuel IH]; intros n acc Hpos H.
  - cbn in H. lia.
  - cbn [str_digits]. destruct (n <? 10) eqn:E.
    + apply N.ltb_lt in E. exists n, acc.
      rewrite N.mod_small by lia. split; [reflexivity | lia].
    + apply N.ltb_ge in E. apply IH.
      * apply N.div_str_pos. lia.
      * rewrite Nat2N.inj_succ, N.pow_succ_r' in H.
        apply N.Div0.div_lt_upper_bound. lia.
Qed.

Local Close Scope N_scope.

Lemma int_from_bytes_big_4 (b0 b1 b2 b3 : Byte.byte) :
  int_from_bytes_big [b0; b1; b2; b3] =
  Z.of_N (Byte.to_N b0) * 2 ^ 24 + Z.of_N (Byte.to_N b1) * 2 ^ 16
  + Z.of_N (Byte.to_N b2) * 2 ^ 8 + Z.of_N (Byte.to_N b3).
Proof. unfold int_from_bytes_big. cbn [fold_left]. lia. Qed.

Lemma int_from_bytes_big_4_range (b0 b1 b2 b3 : Byte.byte) :
  0 <= int_from_bytes_big [b0; b1; b2; b3] < 2 ^ 32.
Proof.
  rewrite int_from_bytes_big_4.
  pose proof (Byte.to_N_bounded b0). pose proof (Byte.to_N_bounded b1).
  pose proof (Byte.to_N_bounded b2). pose proof (Byte.to_N_bounded b3).
  lia.
Qed.

(** C9, as the code has it.  For every four random bytes the version
    string is the decimal rendering of the bytes read as one big-endian
    integer: a string of digits with that value and no leading zero; it
    is between one and ten characters long, one for four zero bytes and
    ten for four [0xff] bytes. *)
Theorem get_rand_version_decimal (b0 b1 b2 b3 : Byte.byte) :
  let v := Z.of_N (Byte.to_N b0) * 2 ^ 24 + Z.of_N (Byte.to_N b1) * 2 ^ 16
           + Z.of_N (Byte.to_N b2) * 2 ^ 8 + Z.of_N (Byte.to_N b3) in
  let s := get_rand_version [b0; b1; b2; b3] in
  decimal_value s = Some (Z.to_N v)
  /\ (s = "0" \/ startswith s "0" = false)
  /\ (1 <= String.length s <= 10)%nat
  /\ get_rand_version [Byte.x00; Byte.x00; Byte.x00; Byte.x00] = "0"
  /\ get_rand_version [Byte.xff; Byte.xff; Byte.xff; Byte.xff] = "4294967295".
Proof.
  intros v s.
  pose proof (int_from_bytes_big_4 b0 b1 b2 b3) as Hv. fold v in Hv.
  pose proof (int_from_bytes_big_4_range b0 b1 b2 b3) as Hr. rewrite Hv in Hr.
  assert (Hs : s = str_digits (S (N.to_nat (N.size (Z.to_N v)))) (Z.to_N v) "").
  { unfold s, get_rand_version, str_int. cbv zeta. rewrite Hv.
    assert (L : (v <? 0) = false) by (apply Z.ltb_ge; lia).
    rewrite L. now rewrite <- Zabs2N.abs_N_nonneg by lia. }
  set (m := Z.to_N v) in *.
  assert (Hfuel : (m < 2 ^ N.of_nat (S (N.to_nat (N.size m))))%N).
  { rewrite Nat2N.inj_succ, N2Nat.id, N.pow_succ_r'.
    pose proof (N.size_gt m). lia. }
  assert (Hm : (m < 2 ^ 32)%N) by (unfold m; lia).
  repeat split; try reflexivity.
  - pose proof (str_digits_value _ _ Hfuel) as V. rewrite <- Hs in V.
    pose proof (str_digits_nonempty (N.to_nat (N.size m)) m "") as NE.
    rewrite <- Hs in NE. destruct s; [cbn in NE; lia | exact V].
  - destruct (N.eq_dec m 0) as [Z0 | NZ].
    + left. rewrite Hs, Z0. reflexivity.
    + right. rewrite Hs.
      destruct (str_digits_leading _ m "" ltac:(lia) Hfuel) as (d & rest & -> & Hd).
      assert (C : (d = 1 \/ d = 2 \/ d = 3 \/ d = 4 \/ d = 5 \/ d = 6
                   \/ d = 7 \/ d = 8 \/ d = 9)%N) by lia.
      repeat (destruct C as [-> | C]; [reflexivity|]). now subst.
  - pose proof (str_digits_nonempty (N.to_nat (N.size m)) m "") as NE.
    rewrite <- Hs in NE. cbn [String.length] in NE. lia.
  - rewrite Hs.
    pose proof (str_digits_length (S (N.to_nat (N.size m))) m "" 10) as L.
    cbn [String.length] in L. rewrite Nat.add_0_r in L.
    apply L; [lia|]. change (10 ^ N.of_nat 10)%N with 10000000000%N. lia.
Qed.

(** C9 as written fails: the token has no fixed width. *)
Lemma get_rand_version_width_varies :
  ~ (exists width : nat,
        forall b0 b1 b2 b3 : Byte.byte,
          String.length (get_rand_version [b0; b1; b2; b3]) = width).
Proof.
  intros [width H].
  pose proof (H Byte.x00 Byte.x00 Byte.x00 Byte.x00) as H0.
  pose proof (H Byte.xff Byte.xff Byte.xff Byte.xff) as H1.
  vm_compute in H0, H1. congruence.
Qed.

(** *** Manifest location *)

Lemma getinfo_is_member (archive : ZipFile) (name : string) :
  match getinfo archive name with
  | Return _ => is_member archive name = true
  | Raise _ => is_member archive name = false
  end.
Proof.
  unfold getinfo, is_member.
  destruct (find _ (rev (members archive))) as [m|] eqn:F.
  - apply find_some in F. destruct F as [I E]. apply in_rev in I.
    apply existsb_exists. now exists m.
  - destruct (existsb _ (members archive)) eqn:X; [|reflexivity].
    apply existsb_exists in X. destruct X as (m & I & E).
    apply in_rev in I. now rewrite (find_none _ _ F m I) in E.
Qed.

Lemma first_present_none (archive : ZipFile) (paths : list string) :
  (forall q, In q paths -> is_member archive q = false) ->
  first_present archive paths = None.
Proof.
  induction paths as [|q paths IH]; intros H; cbn [first_present]; [reflexivity|].
  pose proof (getinfo_is_member archive q) as G.
  destruct (getinfo archive q).
  - rewrite (H q (or_introl eq_refl)) in G. discriminate.
  - apply IH. intros q' Hq'. apply H. now right.
Qed.

Lemma first_present_first (archive : ZipFile) (pre post : list string) (p : string) :
  (forall q, In q pre -> is_member archive q = false) ->
  is_member archive p = true ->
  first_present archive (pre ++ p :: post) = Some p.
Proof.
  intros Hpre Hp. induction pre as [|q pre IH]; cbn [app first_present].
  - pose proof (getinfo_is_member archive p) as G.
    destruct (getinfo archive p); [reflexivity | congruence].
  - pose proof (getinfo_is_member archive q) as G.
    destruct (getinfo archive q).
    + rewrite (Hpre q (or_introl eq_refl)) in G. discriminate.
    + apply IH. intros q' Hq'. apply Hpre. now right.
Qed.

(** C3.  The locator tests [fabric.mod.json], [quilt.mod.json],
    [META-INF/mods.toml], [META-INF/neoforge.mods.toml], [shaders/],
    [data/], [pack.mcmeta] in this order and returns the first one that is
    a member of the archive, whatever else the archive holds: an archive
    with both [fabric.mod.json] and [pack.mcmeta] is driven by
    [fabric.mod.json].  When none is a member and the [MANIFEST.MF]
    fallback is off it raises, and so do [__parse_manifest] and [parse]:
    no record is produced. *)
Theorem get_manifest_precedence
    (url_base_path : string)
    (json_load toml_load_mod0 : string -> result (dict string))
    (disk : string -> option (option (list (string * string))))
    (self : Parser) (urandom4 : list Byte.byte) (archive : ZipFile) :
  paths_to_try =
    [ "fabric.mod.json"; "quilt.mod.json"; "META-INF/mods.toml";
      "META-INF/neoforge.mods.toml"; "shaders/"; "data/"; "pack.mcmeta" ]
  /\ (forall pre p post,
         paths_to_try = (pre ++ p :: post)%list ->
         (forall q, In q pre -> is_member archive q = false) ->
         is_member archive p = true ->
         get_manifest self archive = Return p)
  /\ (is_member archive "fabric.mod.json" = true ->
      is_member archive "pack.mcmeta" = true ->
      get_manifest self archive = Return "fabric.mod.json")
  /\ ((forall q, In q paths_to_try -> is_member archive q = false) ->
      accept_mf self = false ->
      let e := Exception ("No manifest found for the file " ++ filename archive ++ ".") in
      get_manifest self archive = Raise e
      /\ parse_manifest url_base_path json_load toml_load_mod0 self urandom4 archive
         = Raise e
      /\ (disk (file self) = Some (Some (members archive)) ->
          filename archive = file self ->
          parse url_base_path json_load toml_load_mod0 disk self urandom4 = Raise e)).
Proof.
  assert (First : forall pre p post,
             paths_to_try = (pre ++ p :: post)%list ->
             (forall q, In q pre -> is_member archive q = false) ->
             is_member archive p = true ->
             get_manifest self archive = Return p).
  { intros pre p post E Hpre Hp. unfold get_manifest.
    now rewrite E, (first_present_first archive pre post p Hpre Hp). }
  split; [reflexivity|]. split; [exact First|]. split.
  - intros Hf _. apply (First [] "fabric.mod.json" (tl paths_to_try));
      [reflexivity | intros q [] | exact Hf].
  - intros Hnone Hmf e.
    assert (G : get_manifest self archive = Raise e).
    { unfold get_manifest. rewrite (first_present_none _ _ Hnone), Hmf.
      reflexivity. }
    split; [exact G|].
    assert (P : parse_manifest url_base_path json_load toml_load_mod0 self
                  urandom4 archive = Raise e).
    { unfold parse_manifest. rewrite G. reflexivity. }
    split; [exact P|].
    intros Hdisk Hname. unfold parse. rewrite Hdisk.
    destruct archive as [fn ms]. cbn [filename members] in *. subst fn.
    exact P.
Qed.

Lemma get_manifest_precedence_witness :
  get_manifest (mkParser "mods/a.jar" "" false)
    (mkZipFile "mods/a.jar" [("pack.mcmeta", "{}"); ("fabric.mod.json", "{}")])
  = Return "fabric.mod.json"
  /\ parse_manifest default_url_base_path (fun _ => Return []) (fun _ => Return [])
       (mkParser "mods/b.zip" "" false) []
       (mkZipFile "mods/b.zip" [("readme.txt", "hello")])
     = Raise (Exception "No manifest found for the file mods/b.zip.").
Proof.
  split.
  - apply (proj1 (proj2 (get_manifest_precedence default_url_base_path
                           (fun _ => Return []) (fun _ => Return [])
                           (fun _ => None) _ [] _))
             [] "fabric.mod.json" (tl paths_to_try)).
    + reflexivity.
    + intros q [].
    + reflexivity.
  - apply (proj2 (proj2 (proj2 (get_manifest_precedence default_url_base_path
                                  (fun _ => Return []) (fun _ => Return [])
                                  (fun _ => None)
                                  (mkParser "mods/b.zip" "" false) []
                                  (mkZipFile "mods/b.zip" [("readme.txt", "hello")]))))).
    + intros q Hq. simpl in Hq.
      repeat (destruct Hq as [<- | Hq]; [reflexivity|]). contradiction.
    + reflexivity.
Defined.

End StaticFacts.

(** ** modrinth_versions.py: loader mapping, join, shared join state *)

Module ModrinthFacts.

Import PyFacts Modrinth.

(** *** Dictionaries *)

Lemma dict_get_set_same {V} (d : dict V) (k : string) (v : V) :
  dict_get (dict_set d k v) k = Some v.
Proof.
  induction d as [|[k' v'] d IH]; cbn [dict_set dict_get].
  - now rewrite String.eqb_refl.
  - destruct (k' =? k)%string eqn:E; cbn [dict_get]; rewrite E;
      [reflexivity | exact IH].
Qed.

Lemma dict_get_set_other {V} (d : dict V) (k k' : string) (v : V) :
  k <> k' -> dict_get (dict_set d k v) k' = dict_get d k'.
Proof.
  intros N. induction d as [|[k0 v0] d IH]; cbn [dict_set dict_get].
  - apply String.eqb_neq in N. now rewrite N.
  - destruct (k0 =? k)%string eqn:E; cbn [dict_get].
    + apply String.eqb_eq in E. subst k0.
      apply String.eqb_neq in N. now rewrite N.
    + destruct (k0 =? k')%string; [reflexivity | exact IH].
Qed.

Lemma dict_contains_set {V} (d : dict V) (k k' : string) (v : V) :
  dict_contains d k' = true -> dict_contains (dict_set d k v) k' = true.
Proof.
  unfold dict_contains. destruct (string_dec k k') as [<- | N].
  - now rewrite dict_get_set_same.
  - now rewrite dict_get_set_other.
Qed.

(** *** The loader table *)

Lemma get_project_type_cons (tag : string) (rest : list string) :
  get_project_type (tag :: rest) =
  match loader_outcome tag with
  | Some t => t
  | None => get_project_type rest
  end.
Proof.
  cbn [get_project_type in_list existsb].
  unfold loader_outcome, loader_table. cbn [find fst].
  rewrite !(String.eqb_sym tag).
  repeat match goal with
         | |- context [(?a =? tag)%string] =>
             destruct (a =? tag)%string; cbn [orb option_map snd];
             try reflexivity
         end.
Qed.

Lemma get_project_type_no_match (loaders : list string) :
  (forall x, In x loaders -> loader_outcome x = None) ->
  get_project_type loaders = mod_.
Proof.
  induction loaders as [|tag rest IH]; intros H; [reflexivity|].
  rewrite get_project_type_cons, (H tag (or_introl eq_refl)).
  apply IH. intros x Hx. apply H. now right.
Qed.

Lemma get_project_type_match (pre post : list string) (tag : string) (t : ContentType) :
  (forall x, In x pre -> loader_outcome x = None) ->
  loader_outcome tag = Some t ->
  get_project_type (pre ++ tag :: post) = t.
Proof.
  intros Hpre Ht. induction pre as [|x pre IH]; cbn [app];
    rewrite get_project_type_cons.
  - now rewrite Ht.
  - rewrite (Hpre x (or_introl eq_refl)). apply IH.
    intros y Hy. apply Hpre. now right.
Qed.

(** C4.  The type of a list of loader tags is the outcome of its first
    tag that the priority table lists (fabric, quilt, forge, neoforge:
    mod; iris, optifine: shader; datapack: datapack; minecraft:
    resourcepack), and mod when the table lists none of them. *)
Theorem get_project_type_first_match (loaders : list string) :
  (forall pre tag post t,
      loaders = (pre ++ tag :: post)%list ->
      (forall x, In x pre -> loader_outcome x = None) ->
      loader_outcome tag = Some t ->
      get_project_type loaders = t)
  /\ ((forall x, In x loaders -> loader_outcome x = None) ->
      get_project_type loaders = mod_)
  /\ map loader_outcome
       ["fabric"; "quilt"; "forge"; "neoforge"; "iris"; "optifine"; "datapack";
        "minecraft"]
     = [Some mod_; Some mod_; Some mod_; Some mod_; Some shader; Some shader;
        Some datapack; Some resourcepack]
  /\ get_project_type ["fabric"] = mod_
  /\ get_project_type ["iris"] = shader
  /\ get_project_type ["datapack"] = datapack
  /\ get_project_type ["minecraft"] = resourcepack
  /\ get_project_type [] = mod_.
Proof.
  split; [|split; [apply get_project_type_no_match | repeat split; reflexivity]].
  intros pre tag post t -> Hpre Ht. now apply get_project_type_match.
Qed.

Lemma get_project_type_first_match_witness :
  get_project_type ["bukkit"; "iris"; "fabric"] = shader
  /\ get_project_type ["bukkit"; "paper"] = mod_.
Proof.
  split.
  - apply (proj1 (get_project_type_first_match ["bukkit"; "iris"; "fabric"])
             ["bukkit"] "iris" ["fabric"] shader).
    + reflexivity.
    + intros x Hx. simpl in Hx. destruct Hx as [<- | []]. reflexivity.
    + reflexivity.
  - apply (proj1 (proj2 (get_project_type_first_match ["bukkit"; "paper"]))).
    intros x Hx. simpl in Hx.
    repeat (destruct Hx as [<- | Hx]; [reflexivity|]). contradiction.
Defined.

(** *** The shared join map *)

Lemma init_fold_other (vs : list string) (d : dict string) (k : string) :
  ~ In k vs ->
  dict_get (fold_left (fun d version => dict_set d version "") vs d) k = dict_get d k.
Proof.
  revert d. induction vs as [|v vs IH]; intros d H; cbn [fold_left]; [reflexivity|].
  rewrite IH by (intros C; apply H; now right).
  apply dict_get_set_other. intros ->. apply H. now left.
Qed.

Lemma init_fold_own (vs : list string) (d : dict string) (k : string) :
  In k vs ->
  dict_get (fold_left (fun d version => dict_set d version "") vs d) k = Some "".
Proof.
  revert d. induction vs as [|v vs IH]; intros d H; cbn [fold_left]; [contradiction|].
  destruct (in_dec string_dec k vs) as [I | NI]; [now apply IH|].
  destruct H as [-> | H]; [|contradiction].
  rewrite init_fold_other by assumption. apply dict_get_set_same.
Qed.

Lemma init_fold_keeps (vs : list string) (d : dict string) (k : string) :
  dict_contains d k = true ->
  dict_contains (fold_left (fun d version => dict_set d version "") vs d) k = true.
Proof.
  intros H. unfold dict_contains in *.
  destruct (in_dec string_dec k vs) as [I | NI].
  - now rewrite init_fold_own.
  - now rewrite init_fold_other.
Qed.

(** What a successful construction leaves behind. *)
Lemma Parser_init_world (files_on_disk : string -> option string)
    (path : string) (self : Parser) (w w' : World) :
  Parser_init files_on_disk path w = (Return self, w') ->
  id_map w' = fold_left (fun d version => dict_set d version "") (versions self) (id_map w)
  /\ stdout w' = stdout w.
Proof.
  unfold Parser_init, read_file, init_id_map, mbind, ret, lift, get_id_map, put_id_map.
  destruct (files_on_disk path); intros H; [|discriminate].
  injection H as <- <-. now split.
Qed.

Lemma record_version_keeps (l : list VersionObj) (d : dict string)
    (files : dict FileInfo) (k : string) :
  dict_contains d k = true ->
  dict_contains (fst (fold_left record_version l (d, files))) k = true.
Proof.
  revert d files. induction l as [|o l IH]; intros d files H; cbn [fold_left];
    [exact H|].
  cbn [record_version]. apply IH. now apply dict_contains_set.
Qed.

Lemma parse_loop_world (files_info : dict FileInfo) (projects_info : dict string)
    (vs : list string) (contents : list Content) (w : World) :
  snd (parse_loop files_info projects_info vs contents w) = w.
Proof.
  revert contents. induction vs as [|v vs IH]; intros contents; cbn [parse_loop];
    [reflexivity|].
  destruct (dict_contains files_info v); [|apply IH].
  unfold mbind, lift, get_id_map.
  destruct (getitem files_info v) as [info|]; [|reflexivity].
  destruct (getitem (id_map w) v) as [project_id|]; [|reflexivity].
  destruct (getitem projects_info project_id); [apply IH | reflexivity].
Qed.

Section Registry.

Variable get_versions : list string -> Response (list VersionObj).
Variable get_projects : list string -> Response (list ProjectObj).

Lemma get_versions_files_returns (self : Parser) (w : World) :
  exists files_info w1,
    get_versions_files get_versions self w = (Return files_info, w1)
    /\ forall k, dict_contains (id_map w) k = true ->
                 dict_contains (id_map w1) k = true.
Proof.
  unfold get_versions_files, mbind, ret, get_id_map, put_id_map, print.
  destruct (status_code (get_versions (versions self)) =? 200).
  - pose proof (record_version_keeps (json (get_versions (versions self)))
                  (id_map w) []) as K.
    destruct (fold_left record_version _ _) as [idm' files].
    exists files, (mkWorld idm' (stdout w)). split; [reflexivity | exact K].
  - eexists _, _. split; [reflexivity | trivial].
Qed.

Lemma get_projects_info_returns (self : Parser) (w : World) :
  exists projects_info w2,
    get_projects_info get_projects self w = (Return projects_info, w2)
    /\ id_map w2 = id_map w.
Proof.
  unfold get_projects_info, mbind, ret, get_id_map, print.
  destruct (status_code _ =? 200); eexists _, _; split; reflexivity.
Qed.

(** A run of [parse], whatever its outcome, only grows the shared map. *)
Lemma parse_keeps_keys (self : Parser) (w w' : World) (r : result SyncData) :
  parse get_versions get_projects self w = (r, w') ->
  forall k, dict_contains (id_map w) k = true -> dict_contains (id_map w') k = true.
Proof.
  unfold parse, mbind at 1 2.
  destruct (get_versions_files_returns self w) as (fi & w1 & -> & K1).
  destruct (get_projects_info_returns self w1) as (pi & w2 & -> & E2).
  pose proof (parse_loop_world fi pi (versions self) [] w2) as L.
  unfold mbind, ret.
  destruct (parse_loop fi pi (versions self) [] w2) as [[cs | e] w3];
    cbn [snd] in L; subst w3; intros H; injection H as _ <-;
    intros k Hk; rewrite E2; now apply K1.
Qed.

(** C10.  The join map belongs to the class, not to the instance:
    constructing a [Parser] sets the entries of its own versions and
    leaves every other entry as it was, so after a second construction
    in the same process the map still holds the versions of the first
    instance, also when the first instance has run [parse] in between. *)
Theorem id_map_outlives_parser
    (files_on_disk : string -> option string)
    (path1 path2 : string) (p1 p2 : Parser) (w0 w1 w2 : World) :
  Parser_init files_on_disk path1 w0 = (Return p1, w1) ->
  Parser_init files_on_disk path2 w1 = (Return p2, w2) ->
  (forall v, In v (versions p1) -> dict_contains (id_map w2) v = true)
  /\ (forall k, dict_contains (id_map w1) k = true ->
                dict_contains (id_map w2) k = true)
  /\ (forall k, ~ In k (versions p2) ->
                dict_get (id_map w2) k = dict_get (id_map w1) k)
  /\ (forall v, In v (versions p2) -> dict_get (id_map w2) v = Some "")
  /\ (forall r w1' p2' w2',
         parse get_versions get_projects p1 w1 = (r, w1') ->
         Parser_init files_on_disk path2 w1' = (Return p2', w2') ->
         forall v, In v (versions p1) -> dict_contains (id_map w2') v = true).
Proof.
  intros H1 H2.
  destruct (Parser_init_world _ _ _ _ _ H1) as [E1 _].
  destruct (Parser_init_world _ _ _ _ _ H2) as [E2 _].
  assert (Own1 : forall v, In v (versions p1) -> dict_contains (id_map w1) v = true).
  { intros v Hv. unfold dict_contains. rewrite E1, init_fold_own by assumption.
    reflexivity. }
  assert (Keep : forall k, dict_contains (id_map w1) k = true ->
                           dict_contains (id_map w2) k = true).
  { intros k Hk. rewrite E2. now apply init_fold_keeps. }
  split; [intros v Hv; apply Keep, Own1, Hv|].
  split; [exact Keep|].
  split; [intros k Hk; rewrite E2; now apply init_fold_other|].
  split; [intros v Hv; rewrite E2; now apply init_fold_own|].
  intros r w1' p2' w2' Hp Hi v Hv.
  destruct (Parser_init_world _ _ _ _ _ Hi) as [E _].
  rewrite E. apply init_fold_keeps.
  apply (parse_keeps_keys _ _ _ _ Hp). now apply Own1.
Qed.

(** *** The join *)


(** The loop returns only if every name could be looked up. *)
Lemma parse_loop_returns_inv (files_info : dict FileInfo) (projects_info : dict string)
    (vs : list string) (contents cs : list Content) (w w' : World) :
  parse_loop files_info projects_info vs contents w = (Return cs, w') ->
  forall v, In v vs -> dict_contains files_info v = true ->
    exists pid nm, dict_get (id_map w) v = Some pid
                   /\ dict_get projects_info pid = Some nm.
Proof.
  revert contents. induction vs as [|u vs IH]; intros contents H v Hv C;
    [contradiction|].
  cbn [parse_loop] in H.
  destruct (dict_contains files_info u) eqn:Cu.
  - unfold mbind, lift, get_id_map, getitem in H.
    destruct (dict_get files_info u) as [info|]; [|discriminate].
    destruct (dict_get (id_map w) u) as [pid|] eqn:Hpid; [|discriminate].
    destruct (dict_get projects_info pid) as [nm|] eqn:Hnm; [|discriminate].
    destruct Hv as [<- | Hv]; [now exists pid, nm | now apply (IH _ H)].
  - destruct Hv as [<- | Hv]; [congruence | now apply (IH _ H)].
Qed.


(** *** When a phase fails *)

Lemma parse_loop_no_data (projects_info : dict string) (vs : list string)
    (contents : list Content) (w : World) :
  parse_loop [] projects_info vs contents w = (Return contents, w).
Proof. induction vs as [|v vs IH]; [reflexivity | exact IH]. Qed.

(** A failed versions call: [parse] returns, with no record. *)
Lemma parse_phase1_failure (self : Parser) (w : World) :
  status_code (get_versions (versions self)) <> 200 ->
  exists w', parse get_versions get_projects self w = (Return (SyncData_init []), w').
Proof.
  intros H. apply Z.eqb_neq in H.
  unfold parse, get_versions_files. rewrite H.
  cbv beta iota delta [mbind print ret].
  match goal with |- context [get_projects_info _ _ ?w1] =>
    destruct (get_projects_info_returns self w1) as (pi & w2 & -> & _) end.
  unfold mbind, ret. rewrite parse_loop_no_data. now exists w2.
Qed.

(** A failed projects call, or a project the registry does not return:
    as soon as one input identifier has phase-1 data, [parse] raises. *)
Lemma parse_missing_name_raises (self : Parser) (w w1 w2 : World)
    (files_info : dict FileInfo) (projects_info : dict string) (v : string) :
  get_versions_files get_versions self w = (Return files_info, w1) ->
  get_projects_info get_projects self w1 = (Return projects_info, w2) ->
  In v (versions self) ->
  dict_contains files_info v = true ->
  (forall pid, dict_get (id_map w2) v = Some pid -> dict_get projects_info pid = None) ->
  exists e, parse get_versions get_projects self w = (Raise e, w2).
Proof.
  intros H1 H2 Hv C Hmiss.
  unfold parse, mbind at 1 2. rewrite H1, H2. unfold mbind, ret.
  pose proof (parse_loop_world files_info projects_info (versions self) [] w2) as L.
  destruct (parse_loop files_info projects_info (versions self) [] w2)
    as [[cs | e] w3] eqn:E; cbn [snd] in L; subst w3.
  - destruct (parse_loop_returns_inv _ _ _ _ _ _ _ E v Hv C) as (pid & nm & Hp & Hn).
    rewrite (Hmiss pid Hp) in Hn. discriminate.
  - now exists e.
Qed.

End Registry.

(** C1, where the code departs from it.  With the versions call down,
    [parse] returns a [SyncData] with no record and one printed line.
    With the versions call answered for [V1] and the projects call down,
    [parse] does not return: the lookup of the name of [V1]'s project in
    the empty phase-2 result raises [KeyError]. *)
Theorem parse_phase2_failure_raises :
  parse Scenario.unavailable (Scenario.projects_known [Scenario.P1])
    Scenario.parser Scenario.world
  = (Return (SyncData_init []),
     mkWorld [("V1", ""); ("V2", "")]
       ["Failed to fetch versions info: 503, Service Unavailable"])
  /\ parse (Scenario.versions_known [Scenario.V1]) Scenario.unavailable
       Scenario.parser Scenario.world
     = (Raise (KeyError "P1"),
        mkWorld [("V1", "P1"); ("V2", "")]
          ["Failed to fetch projects info: 503, Service Unavailable"]).
Proof. split; reflexivity. Qed.

(** C2, where the code departs from it.  A version the registry does not
    know ([V2], first run) is left out without a printed line and [V1] is
    still emitted.  A project the registry does not know ([P2], second
    run) is not left out: the lookup of its name raises [KeyError], and
    the record of [V1] is not emitted either. *)
Theorem parse_unknown_project_raises :
  parse (Scenario.versions_known [Scenario.V1])
    (Scenario.projects_known [Scenario.P1]) Scenario.parser Scenario.world
  = (Return (SyncData_init
               [mkContent "https://cdn.example/v1.jar" "Project One" "V1" mod_]),
     mkWorld [("V1", "P1"); ("V2", "")] [])
  /\ parse (Scenario.versions_known [Scenario.V1; Scenario.V2])
       (Scenario.projects_known [Scenario.P1]) Scenario.parser Scenario.world
     = (Raise (KeyError "P2"), mkWorld [("V1", "P1"); ("V2", "P2")] []).
Proof. split; reflexivity. Qed.



Lemma id_map_outlives_parser_witness :
  dict_contains (id_map (mkWorld [("V1", ""); ("V2", ""); ("V3", "")] [])) "V1" = true.
Proof.
  apply (proj1 (id_map_outlives_parser
                  (Scenario.versions_known [Scenario.V1])
                  (Scenario.projects_known [Scenario.P1])
                  Scenario.files_on_disk "versions.txt" "more.txt"
                  Scenario.parser (mkParser "more.txt" ["V3"])
                  fresh_world Scenario.world
                  (mkWorld [("V1", ""); ("V2", ""); ("V3", "")] [])
                  eq_refl eq_refl)).
  simpl. left. reflexivity.
Defined.

End ModrinthFacts.

(** ** static.py: the extractors *)

Module ExtractorFacts.

Import PyFacts Static StaticFacts.

Lemma first_present_some (archive : ZipFile) (paths : list string) (p : string) :
  first_present archive paths = Some p ->
  In p paths /\ is_member archive p = true.
Proof.
  induction paths as [|q paths IH]; cbn [first_present]; [discriminate|].
  pose proof (getinfo_is_member archive q) as G.
  destruct (getinfo archive q).
  - intros E. injection E as <-. split; [now left | exact G].
  - intros E. destruct (IH E) as [I M]. split; [now right | exact M].
Qed.

Lemma get_manifest_cases (self : Parser) (archive : ZipFile) (p : string) :
  get_manifest self archive = Return p ->
  In p (paths_to_try ++ manifests) /\ is_member archive p = true.
Proof.
  unfold get_manifest.
  destruct (first_present archive paths_to_try) as [q|] eqn:F.
  - intros E. injection E as <-. destruct (first_present_some _ _ _ F) as [I M].
    split; [apply in_or_app; now left | exact M].
  - destruct (negb (accept_mf self)); [discriminate|].
    destruct (first_present archive manifests) as [q|] eqn:F'; [|discriminate].
    intros E. injection E as <-. destruct (first_present_some _ _ _ F') as [I M].
    split; [apply in_or_app; now right | exact M].
Qed.

Lemma zip_open_member (archive : ZipFile) (p : string) :
  is_member archive p = true -> exists data, zip_open archive p = Return data.
Proof.
  intros M. unfold zip_open. pose proof (getinfo_is_member archive p) as G.
  destruct (getinfo archive p) as [data|]; [now exists data | congruence].
Qed.

(** Splits a located manifest path into the nine paths it can be. *)
Ltac manifest_cases H :=
  let I := fresh "I" in
  let M := fresh "M" in
  destruct (get_manifest_cases _ _ _ H) as [I M];
  cbn [paths_to_try manifests app In] in I;
  repeat (destruct I as [<- | I]); [.. | contradiction].

Section Configured.

Variable url_base_path : string.
Variable json_load toml_load_mod0 : string -> result (dict string).

(** X1.  The TOML descriptors: the display name wins over the mod id, the mod
    id is used when there is no display name, and a table without a
    usable name or without a version makes the extraction raise
    [KeyError]; the name is looked up before the version. *)
Theorem toml_extraction (self : Parser) (urandom4 : list Byte.byte)
    (archive : ZipFile) (p data : string) (manifest : dict string) :
  get_manifest self archive = Return p ->
  endswith p ".toml" = true ->
  zip_open archive p = Return data ->
  toml_load_mod0 data = Return manifest ->
  let uri := get_uri url_base_path (filename archive) (correction self) in
  let run := parse_manifest url_base_path json_load toml_load_mod0 self urandom4
               archive in
  (forall d v, dict_get manifest "displayName" = Some d ->
               dict_get manifest "version" = Some v ->
               run = Return (mkContent uri d v mod_))
  /\ (forall m v, dict_get manifest "displayName" = None ->
                  dict_get manifest "modId" = Some m ->
                  dict_get manifest "version" = Some v ->
                  run = Return (mkContent uri m v mod_))
  /\ (dict_get manifest "displayName" = None ->
      dict_get manifest "modId" = None ->
      run = Raise (KeyError "modId"))
  /\ (forall n, dict_get manifest "displayName" = Some n
                \/ (dict_get manifest "displayName" = None
                    /\ dict_get manifest "modId" = Some n) ->
                dict_get manifest "version" = None ->
                run = Raise (KeyError "version")).
Proof.
  intros G T O L uri run.
  assert (R : run =
              (name <- (if dict_contains manifest "displayName"
                        then getitem manifest "displayName"
                        else getitem manifest "modId") ;;
               version <- getitem manifest "version" ;;
               Return (mkContent uri name version mod_))).
  { unfold run, parse_manifest. rewrite G. cbn [bind].
    manifest_cases G; try discriminate T;
      cbv beta; rewrite O; cbn [bind]; rewrite L; reflexivity. }
  rewrite R. unfold dict_contains, getitem.
  repeat split.
  - intros d v -> ->. reflexivity.
  - intros m v -> -> ->. reflexivity.
  - intros -> ->. reflexivity.
  - intros n [-> | [-> ->]] ->; reflexivity.
Qed.

(** X2.  The JSON descriptors of Fabric and Quilt: [name] and [version] are
    taken as they stand and the type is mod; a descriptor without [name]
    raises [KeyError] for [name], one with a name but no [version] raises
    it for [version], and an error of the decoder is passed on. *)
Theorem json_extraction (self : Parser) (urandom4 : list Byte.byte)
    (archive : ZipFile) (p data : string) :
  get_manifest self archive = Return p ->
  endswith p ".json" = true ->
  zip_open archive p = Return data ->
  let uri := get_uri url_base_path (filename archive) (correction self) in
  let run := parse_manifest url_base_path json_load toml_load_mod0 self urandom4
               archive in
  (forall manifest n v,
      json_load data = Return manifest ->
      dict_get manifest "name" = Some n ->
      dict_get manifest "version" = Some v ->
      run = Return (mkContent uri n v mod_))
  /\ (forall manifest,
         json_load data = Return manifest ->
         dict_get manifest "name" = None ->
         run = Raise (KeyError "name"))
  /\ (forall manifest n,
         json_load data = Return manifest ->
         dict_get manifest "name" = Some n ->
         dict_get manifest "version" = None ->
         run = Raise (KeyError "version"))
  /\ (forall e, json_load data = Raise e -> run = Raise e).
Proof.
  intros G T O uri run.
  assert (R : run =
              (manifest <- json_load data ;;
               name <- getitem manifest "name" ;;
               version <- getitem manifest "version" ;;
               Return (mkContent uri name version mod_))).
  { unfold run, parse_manifest. rewrite G. cbn [bind].
    manifest_cases G; try discriminate T;
      cbv beta; rewrite O; reflexivity. }
  rewrite R. unfold getitem.
  repeat split.
  - intros manifest n v L N V. rewrite L. cbn [bind]. rewrite N. cbn [bind].
    now rewrite V.
  - intros manifest L N. rewrite L. cbn [bind]. now rewrite N.
  - intros manifest n L N V. rewrite L. cbn [bind]. rewrite N. cbn [bind].
    now rewrite V.
  - intros e L. now rewrite L.
Qed.

(** X3.  A manifest that is neither a JSON nor a TOML descriptor is a bare
    marker.  The directory markers are not opened; [pack.mcmeta] and
    [MANIFEST.MF] are opened but not read.  When the located member
    opens, the record is made from the archive's own path and fresh
    random bytes, its type is the one the marker stands for, and neither
    decoder is consulted. *)
Theorem marker_extraction (self : Parser) (urandom4 : list Byte.byte)
    (archive : ZipFile) (p : string) :
  get_manifest self archive = Return p ->
  endswith p ".json" = false ->
  endswith p ".toml" = false ->
  (endswith p "/" = false -> exists data, zip_open archive p = Return data) ->
  parse_manifest url_base_path json_load toml_load_mod0 self urandom4 archive
  = Return (mkContent (get_uri url_base_path (filename archive) (correction self))
              (get_name_from_path (filename archive))
              (get_rand_version urandom4)
              (manifest_type p)).
Proof.
  intros G J T Hopen. unfold parse_manifest. rewrite G. cbn [bind].
  manifest_cases G; try discriminate J; try discriminate T; cbv beta;
    first [ reflexivity
          | destruct (Hopen eq_refl) as [data O]; rewrite O; reflexivity ].
Qed.

(** X4.  Whatever the manifest, a record that is returned carries the URL
    resolved from the archive path and the correction, and a type fixed
    by which manifest was located, not by what the manifest says. *)
Theorem parse_manifest_url_and_type (self : Parser) (urandom4 : list Byte.byte)
    (archive : ZipFile) (c : Content) :
  parse_manifest url_base_path json_load toml_load_mod0 self urandom4 archive
  = Return c ->
  url c = get_uri url_base_path (filename archive) (correction self)
  /\ exists p, get_manifest self archive = Return p /\ type c = manifest_type p.
Proof.
  unfold parse_manifest.
  destruct (get_manifest self archive) as [p|e] eqn:G; [|discriminate].
  cbn [bind]. intros H.
  assert (url c = get_uri url_base_path (filename archive) (correction self)
          /\ type c = manifest_type p); [|now split; [|exists p]].
  destruct (get_manifest_cases _ _ _ G) as [_ M].
  destruct (zip_open_member _ _ M) as [data O].
  manifest_cases G; cbv beta in H; try rewrite O in H; cbn [bind] in H;
    try (injection H as <-; now split);
    unfold bind, getitem in H;
    repeat match type of H with
           | context [match ?x with _ => _ end] => destruct x; try discriminate H
           end;
    injection H as <-; now split.
Qed.

End Configured.

Lemma toml_extraction_witness :
  parse_manifest default_url_base_path (fun _ => Return [])
    (fun _ => Return [("modId", "examplemod"); ("displayName", "Example Mod");
                      ("version", "1.2.3")])
    (mkParser "mods/example.jar" "" false) []
    (mkZipFile "mods/example.jar"
       [("META-INF/MANIFEST.MF", ""); ("META-INF/mods.toml", "")])
  = Return (mkContent "https://example.com/static/content/example.jar"
              "Example Mod" "1.2.3" mod_).
Proof.
  apply (proj1 (toml_extraction default_url_base_path (fun _ => Return [])
                  (fun _ => Return [("modId", "examplemod");
                                    ("displayName", "Example Mod");
                                    ("version", "1.2.3")])
                  (mkParser "mods/example.jar" "" false) []
                  (mkZipFile "mods/example.jar"
                     [("META-INF/MANIFEST.MF", ""); ("META-INF/mods.toml", "")])
                  "META-INF/mods.toml" "" _
                  eq_refl eq_refl eq_refl eq_refl)); reflexivity.
Defined.

Lemma json_extraction_witness :
  parse_manifest default_url_base_path
    (fun _ => Return [("id", "example"); ("version", "0.4.1")])
    (fun _ => Return [])
    (mkParser "mods/example.jar" "/pack" false) []
    (mkZipFile "mods/example.jar" [("quilt.mod.json", "")])
  = Raise (KeyError "name").
Proof.
  apply (proj1 (proj2 (json_extraction default_url_base_path
                         (fun _ => Return [("id", "example"); ("version", "0.4.1")])
                         (fun _ => Return [])
                         (mkParser "mods/example.jar" "/pack" false) []
                         (mkZipFile "mods/example.jar" [("quilt.mod.json", "")])
                         "quilt.mod.json" "" eq_refl eq_refl eq_refl))
           [("id", "example"); ("version", "0.4.1")]); reflexivity.
Defined.

Lemma marker_extraction_witness :
  parse_manifest default_url_base_path (fun _ => Raise (Exception "unused"))
    (fun _ => Raise (Exception "unused"))
    (mkParser "packs/Faithful 32x.zip" "" false)
    [Byte.x00; Byte.x00; Byte.x01; Byte.x00]
    (mkZipFile "packs/Faithful 32x.zip"
       [("assets/", ""); ("pack.mcmeta", "{}"); ("pack.png", "")])
  = Return (mkContent "https://example.com/static/content/Faithful 32x.zip"
              "Faithful 32x" "256" resourcepack).
Proof.
  apply (marker_extraction default_url_base_path
           (fun _ => Raise (Exception "unused"))
           (fun _ => Raise (Exception "unused"))
           (mkParser "packs/Faithful 32x.zip" "" false)
           [Byte.x00; Byte.x00; Byte.x01; Byte.x00]
           (mkZipFile "packs/Faithful 32x.zip"
              [("assets/", ""); ("pack.mcmeta", "{}"); ("pack.png", "")])
           "pack.mcmeta").
  - reflexivity.
  - reflexivity.
  - reflexivity.
  - intros _. exists "{}". reflexivity.
Defined.

Lemma parse_manifest_url_and_type_witness :
  url (mkContent "https://example.com/static/content/sky.zip" "sky" "7" shader)
  = get_uri default_url_base_path "shaderpacks/sky.zip" "".
Proof.
  apply (proj1 (parse_manifest_url_and_type default_url_base_path
                  (fun _ => Return []) (fun _ => Return [])
                  (mkParser "shaderpacks/sky.zip" "" false)
                  [Byte.x00; Byte.x00; Byte.x00; Byte.x07]
                  (mkZipFile "shaderpacks/sky.zip" [("shaders/", "")])
                  _ eq_refl)).
Defined.

(** X5.  With the fallback on and none of the seven regular paths in the
    archive, the locator takes [MANIFEST.MF] at the root before
    [META-INF/MANIFEST.MF], and raises when neither is there. *)
Theorem get_manifest_fallback (self : Parser) (archive : ZipFile) :
  accept_mf self = true ->
  (forall q, In q paths_to_try -> is_member archive q = false) ->
  get_manifest self archive =
  if is_member archive "MANIFEST.MF" then Return "MANIFEST.MF"
  else if is_member archive "META-INF/MANIFEST.MF"
       then Return "META-INF/MANIFEST.MF"
       else Raise (Exception ("Absolutely no manifest found for the file "
                              ++ filename archive ++ ".")).
Proof.
  intros A N. unfold get_manifest.
  rewrite (first_present_none _ _ N), A. cbn [negb manifests first_present].
  pose proof (getinfo_is_member archive "MANIFEST.MF") as G1.
  pose proof (getinfo_is_member archive "META-INF/MANIFEST.MF") as G2.
  destruct (getinfo archive "MANIFEST.MF"); rewrite G1; [reflexivity|].
  destruct (getinfo archive "META-INF/MANIFEST.MF"); rewrite G2; reflexivity.
Qed.

Lemma get_manifest_fallback_witness :
  get_manifest (mkParser "mods/old.jar" "" true)
    (mkZipFile "mods/old.jar" [("META-INF/MANIFEST.MF", ""); ("net/", "")])
  = Return "META-INF/MANIFEST.MF".
Proof.
  apply (get_manifest_fallback (mkParser "mods/old.jar" "" true)
           (mkZipFile "mods/old.jar" [("META-INF/MANIFEST.MF", ""); ("net/", "")])).
  - reflexivity.
  - intros q Hq. simpl in Hq.
    repeat (destruct Hq as [<- | Hq]; [reflexivity|]). contradiction.
Defined.

Lemma get_name_from_path_pieces_witness :
  get_name_from_path ("mods" ++ "/" ++ join "." (["sodium-fabric-0"; "5"; "3"] ++ ["jar"]))
  = join "" ["sodium-fabric-0"; "5"; "3"].
Proof.
  apply (get_name_from_path_pieces "mods" "jar" ["sodium-fabric-0"; "5"; "3"]).
  repeat constructor.
Defined.

(** X7.  The two smallest corrections.  With the empty correction every
    archive is hosted directly under the base URL, whatever directory it
    was found in; the correction ["/"] is not emptied but kept, so the
    URL has the bare filename after the base URL and one more slash. *)
Theorem get_uri_smallest_corrections (url_base_path filename : string) :
  get_uri url_base_path filename "" = url_base_path ++ basename filename
  /\ get_uri url_base_path filename "/" = url_base_path ++ "/" ++ basename filename.
Proof.
  unfold get_uri. cbv zeta. rewrite relative_path_basename. split; reflexivity.
Qed.

End ExtractorFacts.

(** ** modrinth_versions.py: input file, the two phases, what [parse] raises *)

Module RemoteFacts.

Import PyFacts Modrinth ModrinthFacts.

(** *** Reading the identifiers *)




(** X9.  No identifier read from the file contains a line-ending character. *)
Theorem splitlines_lines_clean (data : string) :
  Forall (fun line => no_line_boundary line = true) (splitlines data).
Proof.
  assert (G : forall n s, (String.length s <= n)%nat ->
              Forall (fun line => no_line_boundary line = true) (splitlines s)).
  { induction n as [|n IH]; intros s L.
    - destruct s; [constructor | cbn in L; lia].
    - destruct s as [|c s]; [constructor|].
      cbn [String.length] in L. cbn [splitlines].
      destruct (is_line_boundary c) eqn:B.
      + assert (T : Forall (fun line => no_line_boundary line = true)
                      (EmptyString :: splitlines s))
          by (constructor; [reflexivity | apply IH; lia]).
        destruct s as [|c' s'].
        * destruct c as [[] [] [] [] [] [] [] []]; exact T.
        * assert (T' : Forall (fun line => no_line_boundary line = true)
                         (EmptyString :: splitlines s'))
            by (constructor; [reflexivity | apply IH; cbn in L; lia]).
          destruct c as [[] [] [] [] [] [] [] []]; try exact T;
            destruct c' as [[] [] [] [] [] [] [] []]; first [exact T | exact T'].
      + assert (T : Forall (fun line => no_line_boundary line = true) (splitlines s))
          by (apply IH; lia).
        destruct (splitlines s) as [|w ws].
        * repeat constructor. cbn [no_line_boundary]. now rewrite B.
        * inversion T as [|? ? Hw Hws]; subst. constructor; [|exact Hws].
          cbn [no_line_boundary]. now rewrite B, Hw. }
  exact (G _ data (le_n _)).
Qed.

(** *** Phase 1 *)

(** X10.  Of the files of a version the first one flagged primary gives the
    URL, the empty string if that file has no [url]; with no file flagged
    primary the URL is the empty string. *)
Theorem primary_file_url_first_primary (files : list FileObj) :
  (forall pre f post,
      files = (pre ++ f :: post)%list ->
      (forall g, In g pre -> f_primary g <> Some true) ->
      f_primary f = Some true ->
      primary_file_url files = match f_url f with Some u => u | None => "" end)
  /\ ((forall g, In g files -> f_primary g <> Some true) ->
      primary_file_url files = "").
Proof.
  assert (Skip : forall g rest, f_primary g <> Some true ->
                 primary_file_url (g :: rest) = primary_file_url rest).
  { intros g rest H. cbn [primary_file_url].
    destruct (f_primary g) as [[]|]; [congruence | reflexivity | reflexivity]. }
  split.
  - intros pre f post -> Hpre Hf.
    induction pre as [|g pre IH]; cbn [app].
    + cbn [primary_file_url]. rewrite Hf. reflexivity.
    + rewrite Skip by (apply Hpre; now left).
      apply IH. intros g' Hg'. apply Hpre. now right.
  - induction files as [|g files IH]; intros H; [reflexivity|].
    rewrite Skip by (apply H; now left).
    apply IH. intros g' Hg'. apply H. now right.
Qed.

Lemma primary_file_url_first_primary_witness :
  primary_file_url
    [ mkFileObj None (Some "https://cdn.example/a-sources.jar");
      mkFileObj (Some true) (Some "https://cdn.example/a.jar");
      mkFileObj (Some true) (Some "https://cdn.example/b.jar") ]
  = "https://cdn.example/a.jar"
  /\ primary_file_url [ mkFileObj (Some false) (Some "https://cdn.example/c.jar") ] = "".
Proof.
  split.
  - apply (proj1 (primary_file_url_first_primary _)
             [mkFileObj None (Some "https://cdn.example/a-sources.jar")]
             (mkFileObj (Some true) (Some "https://cdn.example/a.jar"))
             [mkFileObj (Some true) (Some "https://cdn.example/b.jar")]).
    + reflexivity.
    + intros g Hg. simpl in Hg. destruct Hg as [<- | []]. discriminate.
    + reflexivity.
  - apply (proj2 (primary_file_url_first_primary _)).
    intros g Hg. simpl in Hg. destruct Hg as [<- | []]. discriminate.
Defined.

(** The loop over the versions of a response, seen from one identifier:
    the last object that carries it decides both maps, and without such
    an object both keep what they had. *)
Lemma record_version_fold (resp : list VersionObj) (d : dict string)
    (files : dict FileInfo) (v : string) :
  match last_version resp v with
  | Some o =>
      dict_get (snd (fold_left record_version resp (d, files))) v
      = Some (mkFileInfo (primary_file_url (get_default (v_files o) []))
                (get_project_type (get_default (v_loaders o) [])))
      /\ dict_get (fst (fold_left record_version resp (d, files))) v
         = Some (get_default (v_project_id o) "")
  | None =>
      dict_get (snd (fold_left record_version resp (d, files))) v = dict_get files v
      /\ dict_get (fst (fold_left record_version resp (d, files))) v = dict_get d v
  end.
Proof.
  unfold last_version. induction resp as [|o resp IH] using rev_ind.
  - now split.
  - rewrite fold_left_app, rev_app_distr. cbn [fold_left rev app find].
    destruct (fold_left record_version resp (d, files)) as [d' files'].
    cbn [record_version fst snd] in *.
    destruct (v_id o =? v)%string eqn:E.
    + apply String.eqb_eq in E. subst v. now rewrite !dict_get_set_same.
    + apply String.eqb_neq in E. rewrite !dict_get_set_other by assumption.
      exact IH.
Qed.

Section Registry.

Variable get_versions : list string -> Response (list VersionObj).
Variable get_projects : list string -> Response (list ProjectObj).

(** X11.  When the versions call answers 200, phase 1 returns without
    printing, and for every identifier the last version object of the
    response that carries it gives the kept URL and type and the project
    recorded in the join map; an identifier the response does not carry
    has no phase-1 data and keeps its join-map entry. *)
Theorem get_versions_files_keeps_last (self : Parser) (w : World) :
  status_code (get_versions (versions self)) = 200 ->
  exists files_info w1,
    get_versions_files get_versions self w = (Return files_info, w1)
    /\ stdout w1 = stdout w
    /\ forall v,
         match last_version (json (get_versions (versions self))) v with
         | Some o =>
             dict_get files_info v
             = Some (mkFileInfo (primary_file_url (get_default (v_files o) []))
                       (get_project_type (get_default (v_loaders o) [])))
             /\ dict_get (id_map w1) v = Some (get_default (v_project_id o) "")
         | None =>
             dict_get files_info v = None
             /\ dict_get (id_map w1) v = dict_get (id_map w) v
         end.
Proof.
  intros H. apply Z.eqb_eq in H.
  unfold get_versions_files, mbind, ret, get_id_map, put_id_map. rewrite H.
  pose proof (record_version_fold (json (get_versions (versions self)))
                (id_map w) []) as K.
  destruct (fold_left record_version _ _) as [idm' files].
  exists files, (mkWorld idm' (stdout w)).
  split; [reflexivity|]. split; [reflexivity|]. exact K.
Qed.

(** Every identifier with phase-1 data has an entry in the join map. *)
Lemma files_info_keys_in_id_map (self : Parser) (w w1 : World)
    (files_info : dict FileInfo) :
  get_versions_files get_versions self w = (Return files_info, w1) ->
  forall v, dict_contains files_info v = true -> dict_contains (id_map w1) v = true.
Proof.
  unfold get_versions_files, mbind, ret, get_id_map, put_id_map, print.
  destruct (status_code (get_versions (versions self)) =? 200).
  - intros E v. unfold dict_contains.
    pose proof (record_version_fold (json (get_versions (versions self)))
                  (id_map w) [] v) as K.
    destruct (fold_left record_version _ _) as [idm' files].
    injection E as <- <-. cbn [fst snd id_map] in *.
    destruct (last_version _ v); destruct K as [K1 K2]; rewrite K1.
    + now rewrite K2.
    + discriminate.
  - intros E. injection E as <- <-. discriminate.
Qed.

(** *** Phase 2 *)

Lemma record_project_fold (resp : list ProjectObj) (d : dict string) (pid : string) :
  dict_get (fold_left record_project resp d) pid =
  match last_project resp pid with
  | Some p =>
      Some match p_title p with
           | Some title => title
           | None => match p_slug p with Some slug => slug | None => "UNKNOWN" end
           end
  | None => dict_get d pid
  end.
Proof.
  unfold last_project. induction resp as [|p resp IH] using rev_ind.
  - reflexivity.
  - rewrite fold_left_app, rev_app_distr. cbn [fold_left rev app find].
    unfold record_project at 1.
    destruct (p_id p =? pid)%string eqn:E.
    + apply String.eqb_eq in E. subst pid. rewrite dict_get_set_same.
      now destruct (p_title p), (p_slug p).
    + apply String.eqb_neq in E. now rewrite dict_get_set_other.
Qed.

(** X12.  Phase 2 asks for the non-empty project identifiers of the join map
    and for nothing else.  When the call answers 200 it returns without
    printing and without touching the join map, and a project identifier
    is given the name of the last project object that carries it: the
    title, without a title the slug, without both ["UNKNOWN"]; an
    identifier the response does not carry gets no name. *)
Theorem get_projects_info_names (self : Parser) (w : World) :
  let ids := filter (fun id => negb (id =? "")%string) (dict_values (id_map w)) in
  status_code (get_projects ids) = 200 ->
  ~ In "" ids
  /\ exists projects_info,
       get_projects_info get_projects self w = (Return projects_info, w)
       /\ forall pid,
            dict_get projects_info pid =
            match last_project (json (get_projects ids)) pid with
            | Some p =>
                Some match p_title p with
                     | Some title => title
                     | None =>
                         match p_slug p with Some slug => slug | None => "UNKNOWN" end
                     end
            | None => None
            end.
Proof.
  intros ids H. split.
  - unfold ids. rewrite filter_In. intros [_ C]. discriminate.
  - apply Z.eqb_eq in H.
    unfold get_projects_info, mbind, ret, get_id_map. fold ids. rewrite H.
    eexists. split; [reflexivity|].
    intros pid. apply record_project_fold.
Qed.

(** *** What [parse] raises, prints and leaves behind *)

Lemma parse_loop_raise_inv (files_info : dict FileInfo) (projects_info : dict string)
    (vs : list string) (contents : list Content) (w w' : World) (e : exn) :
  (forall v, dict_contains files_info v = true -> dict_contains (id_map w) v = true) ->
  parse_loop files_info projects_info vs contents w = (Raise e, w') ->
  exists v pid,
    In v vs /\ dict_contains files_info v = true
    /\ dict_get (id_map w) v = Some pid
    /\ dict_get projects_info pid = None
    /\ e = KeyError pid.
Proof.
  intros K. revert contents. induction vs as [|u vs IH]; intros contents H.
  - discriminate H.
  - cbn [parse_loop] in H. destruct (dict_contains files_info u) eqn:C.
    + pose proof (K u C) as Ku. unfold dict_contains in C, Ku.
      unfold mbind, lift, get_id_map, getitem in H.
      destruct (dict_get files_info u) as [info|] eqn:G; [|discriminate C].
      destruct (dict_get (id_map w) u) as [pid|] eqn:P; [|discriminate Ku].
      destruct (dict_get projects_info pid) as [nm|] eqn:N.
      * destruct (IH _ H) as (v & pid' & I & R). exists v, pid'.
        split; [now right | exact R].
      * injection H as <- _. exists u, pid.
        unfold dict_contains. rewrite G. repeat split; try assumption. now left.
    + destruct (IH _ H) as (v & pid' & I & R). exists v, pid'.
      split; [now right | exact R].
Qed.

(** X13.  Once both phases have returned, all that [parse] can still
    raise is the [KeyError] of the join: the project identifier of an
    input identifier with phase-1 data, for which phase 2 has no name.
    The lookups in the phase-1 data and in the join map never fail. *)
Theorem parse_raises_only_missing_project (self : Parser) (w w1 w2 w' : World)
    (files_info : dict FileInfo) (projects_info : dict string) (e : exn) :
  get_versions_files get_versions self w = (Return files_info, w1) ->
  get_projects_info get_projects self w1 = (Return projects_info, w2) ->
  parse get_versions get_projects self w = (Raise e, w') ->
  w' = w2
  /\ exists v pid,
       In v (versions self)
       /\ dict_contains files_info v = true
       /\ dict_get (id_map w2) v = Some pid
       /\ dict_get projects_info pid = None
       /\ e = KeyError pid.
Proof.
  intros E1 E2. unfold parse, mbind at 1 2. rewrite E1, E2. unfold mbind, ret.
  pose proof (parse_loop_world files_info projects_info (versions self) [] w2) as L.
  destruct (parse_loop files_info projects_info (versions self) [] w2)
    as [[cs | e'] w3] eqn:E; cbn [snd] in L; subst w3; intros H; [discriminate H|].
  injection H as -> <-. split; [reflexivity|].
  assert (K : forall v, dict_contains files_info v = true ->
                        dict_contains (id_map w2) v = true).
  { intros v C.
    destruct (get_projects_info_returns get_projects self w1) as (pi & w2' & E2' & I2).
    rewrite E2 in E2'. injection E2' as _ <-. rewrite I2.
    exact (files_info_keys_in_id_map _ _ _ _ E1 v C). }
  destruct (parse_loop_raise_inv _ _ _ _ _ _ _ K E) as (v & pid & I & C & P & N & ->).
  exists v, pid. repeat split; assumption.
Qed.

(** X14.  If an input identifier has phase-1 data and phase 2 has no name for
    its project, [parse] returns no [SyncData] at all: it raises the
    [KeyError] of the project identifier of such an input identifier, one
    with phase-1 data and no phase-2 name, and the records of the other
    identifiers are lost with it. *)
Theorem parse_raises_on_missing_name (self : Parser) (w w1 w2 : World)
    (files_info : dict FileInfo) (projects_info : dict string) (v pid : string) :
  get_versions_files get_versions self w = (Return files_info, w1) ->
  get_projects_info get_projects self w1 = (Return projects_info, w2) ->
  In v (versions self) ->
  dict_contains files_info v = true ->
  dict_get (id_map w2) v = Some pid ->
  dict_get projects_info pid = None ->
  exists v' pid',
    parse get_versions get_projects self w = (Raise (KeyError pid'), w2)
    /\ In v' (versions self)
    /\ dict_contains files_info v' = true
    /\ dict_get (id_map w2) v' = Some pid'
    /\ dict_get projects_info pid' = None.
Proof.
  intros E1 E2 Hv C P N.
  assert (Hmiss : forall q, dict_get (id_map w2) v = Some q ->
                            dict_get projects_info q = None)
    by (intros q Hq; rewrite P in Hq; injection Hq as <-; exact N).
  destruct (parse_missing_name_raises get_versions get_projects self w w1 w2
              files_info projects_info v E1 E2 Hv C Hmiss) as [e R].
  unfold parse, mbind at 1 2 in R. rewrite E1, E2 in R. unfold mbind, ret in R.
  destruct (parse_loop files_info projects_info (versions self) [] w2)
    as [[cs | e'] w3] eqn:E; [discriminate R|].
  injection R as -> ->.
  assert (K : forall u, dict_contains files_info u = true ->
                        dict_contains (id_map w2) u = true).
  { intros u Cu.
    destruct (get_projects_info_returns get_projects self w1) as (pi & w2' & E2' & I2).
    rewrite E2 in E2'. injection E2' as _ <-. rewrite I2.
    exact (files_info_keys_in_id_map _ _ _ _ E1 u Cu). }
  destruct (parse_loop_raise_inv _ _ _ _ _ _ _ K E) as (v' & pid' & I & C' & P' & N' & ->).
  exists v', pid'. split; [|repeat split; assumption].
  unfold parse, mbind at 1 2. rewrite E1, E2. unfold mbind, ret. now rewrite E.
Qed.

(** X15.  A failed versions call, for every input: [parse] returns a
    [SyncData] without records, leaves the join map as it was, and the
    first line it prints is the failure report with status and body. *)
Theorem parse_versions_call_failed (self : Parser) (w : World) :
  status_code (get_versions (versions self)) <> 200 ->
  exists w' rest,
    parse get_versions get_projects self w = (Return (SyncData_init []), w')
    /\ id_map w' = id_map w
    /\ stdout w'
       = (stdout w
          ++ ("Failed to fetch versions info: "
              ++ str_int (status_code (get_versions (versions self)))
              ++ ", " ++ text (get_versions (versions self)))%string :: rest)%list.
Proof.
  intros H. apply Z.eqb_neq in H.
  unfold parse, get_versions_files. rewrite H.
  cbv beta iota delta [mbind print ret].
  unfold get_projects_info. cbv beta iota delta [mbind print ret get_id_map].
  cbn [id_map stdout].
  destruct (status_code (get_projects _) =? 200); cbv beta iota;
    cbn [id_map stdout]; rewrite parse_loop_no_data; eexists _, _;
    (split; [reflexivity | split; [reflexivity|]]); cbn [stdout].
  - now instantiate (1 := []).
  - rewrite <- app_assoc. reflexivity.
Qed.

(** X16.  With both calls answered 200, [parse] prints nothing, whether it
    returns or raises. *)
Theorem parse_silent_when_answered (self : Parser) (w w' : World)
    (r : result SyncData) :
  status_code (get_versions (versions self)) = 200 ->
  (forall ids, status_code (get_projects ids) = 200) ->
  parse get_versions get_projects self w = (r, w') ->
  stdout w' = stdout w.
Proof.
  intros H1 H2. apply Z.eqb_eq in H1.
  unfold parse, get_versions_files. rewrite H1.
  cbv beta iota delta [mbind ret get_id_map put_id_map].
  destruct (fold_left record_version _ _) as [idm' files].
  cbv beta iota. unfold get_projects_info.
  cbv beta iota delta [mbind ret get_id_map]. cbn [id_map].
  rewrite (proj2 (Z.eqb_eq _ _) (H2 _)).
  match goal with |- context [parse_loop ?a ?b ?c ?d ?x] =>
    pose proof (parse_loop_world a b c d x) as L;
    destruct (parse_loop a b c d x) as [[cs | e] w3] end;
    cbn [snd] in L; subst w3; intros E; injection E as _ <-; reflexivity.
Qed.

End Registry.

Lemma get_versions_files_keeps_last_witness :
  exists files_info w1,
    get_versions_files (Scenario.versions_known [Scenario.V1; Scenario.V2])
      Scenario.parser Scenario.world = (Return files_info, w1)
    /\ dict_get files_info "V2"
       = Some (mkFileInfo "https://cdn.example/v2.zip" shader)
    /\ dict_get (id_map w1) "V2" = Some "P2".
Proof.
  destruct (get_versions_files_keeps_last
              (Scenario.versions_known [Scenario.V1; Scenario.V2])
              Scenario.parser Scenario.world eq_refl)
    as (files_info & w1 & E & _ & K).
  specialize (K "V2").
  change (last_version _ "V2") with (Some Scenario.V2) in K.
  exists files_info, w1. split; [exact E | exact K].
Defined.

Lemma get_projects_info_names_witness :
  exists projects_info,
    get_projects_info
      (fun _ => mkResponse 200 ""
                  [ mkProjectObj "P1" None (Some "project-one");
                    mkProjectObj "P2" None None ])
      Scenario.parser (mkWorld [("V1", "P1"); ("V2", "P2")] [])
    = (Return projects_info, mkWorld [("V1", "P1"); ("V2", "P2")] [])
    /\ dict_get projects_info "P1" = Some "project-one"
    /\ dict_get projects_info "P2" = Some "UNKNOWN".
Proof.
  destruct (proj2 (get_projects_info_names
                     (fun _ => mkResponse 200 ""
                                 [ mkProjectObj "P1" None (Some "project-one");
                                   mkProjectObj "P2" None None ])
                     Scenario.parser (mkWorld [("V1", "P1"); ("V2", "P2")] [])
                     eq_refl))
    as (projects_info & E & K).
  exists projects_info. split; [exact E|]. split; [exact (K "P1") | exact (K "P2")].
Defined.

Lemma parse_raises_only_missing_project_witness :
  exists v pid,
    In v (versions Scenario.parser)
    /\ dict_get [("V1", "P1"); ("V2", "P2")] v = Some pid
    /\ KeyError "P2" = KeyError pid.
Proof.
  destruct (parse_raises_only_missing_project
              (Scenario.versions_known [Scenario.V1; Scenario.V2])
              (Scenario.projects_known [Scenario.P1])
              Scenario.parser Scenario.world
              (mkWorld [("V1", "P1"); ("V2", "P2")] [])
              (mkWorld [("V1", "P1"); ("V2", "P2")] [])
              (mkWorld [("V1", "P1"); ("V2", "P2")] [])
              [("V1", mkFileInfo "https://cdn.example/v1.jar" mod_);
               ("V2", mkFileInfo "https://cdn.example/v2.zip" shader)]
              [("P1", "Project One")] (KeyError "P2")
              eq_refl eq_refl eq_refl)
    as (_ & v & pid & I & _ & P & _ & E).
  exists v, pid. split; [exact I | split; [exact P | exact E]].
Defined.

Lemma parse_raises_on_missing_name_witness :
  exists v' pid',
    parse (Scenario.versions_known [Scenario.V1; Scenario.V2])
      (Scenario.projects_known [Scenario.P1]) Scenario.parser Scenario.world
    = (Raise (KeyError pid'), mkWorld [("V1", "P1"); ("V2", "P2")] [])
    /\ In v' (versions Scenario.parser)
    /\ dict_contains
         [("V1", mkFileInfo "https://cdn.example/v1.jar" mod_);
          ("V2", mkFileInfo "https://cdn.example/v2.zip" shader)] v' = true.
Proof.
  destruct (parse_raises_on_missing_name
              (Scenario.versions_known [Scenario.V1; Scenario.V2])
              (Scenario.projects_known [Scenario.P1])
              Scenario.parser Scenario.world
              (mkWorld [("V1", "P1"); ("V2", "P2")] [])
              (mkWorld [("V1", "P1"); ("V2", "P2")] [])
              [("V1", mkFileInfo "https://cdn.example/v1.jar" mod_);
               ("V2", mkFileInfo "https://cdn.example/v2.zip" shader)]
              [("P1", "Project One")] "V2" "P2"
              eq_refl eq_refl (or_intror (or_introl eq_refl)) eq_refl eq_refl eq_refl)
    as (v' & pid' & E & I & C & _).
  exists v', pid'. split; [exact E | split; [exact I | exact C]].
Defined.

Lemma parse_versions_call_failed_witness :
  exists w' rest,
    parse Scenario.unavailable Scenario.unavailable Scenario.parser Scenario.world
    = (Return (SyncData_init []), w')
    /\ id_map w' = id_map Scenario.world
    /\ stdout w'
       = "Failed to fetch versions info: 503, Service Unavailable" :: rest.
Proof.
  destruct (parse_versions_call_failed Scenario.unavailable Scenario.unavailable
              Scenario.parser Scenario.world)
    as (w' & rest & E & I & O).
  - discriminate.
  - exists w', rest. split; [exact E | split; [exact I | exact O]].
Defined.

Lemma parse_silent_when_answered_witness :
  stdout (mkWorld [("V1", "P1"); ("V2", "P2")] []) = stdout Scenario.world.
Proof.
  apply (parse_silent_when_answered
           (Scenario.versions_known [Scenario.V1; Scenario.V2])
           (Scenario.projects_known [Scenario.P1])
           Scenario.parser Scenario.world
           (mkWorld [("V1", "P1"); ("V2", "P2")] []) (Raise (KeyError "P2"))).
  - reflexivity.
  - intros ids. reflexivity.
  - reflexivity.
Defined.

End RemoteFacts.

(** ** The serialized document *)

Module JsonFacts.

Import PyFacts StaticFacts.

Lemma unescape_escape_char (c : ascii) (rest r : string) :
  unescape rest = Some r ->
  unescape (escape_char c ++ rest) = Some (String c r).
Proof.
  intros H.
  destruct c as [[] [] [] [] [] [] [] []]; cbn; rewrite H; reflexivity.
Qed.

(** X17.  Strings are written so that they can be read back: decoding the
    escaped text gives the string again, so two different strings are
    never written alike. *)
Theorem dumps_str_injective (s t : string) :
  unescape (escape s) = Some s
  /\ (dumps_str s = dumps_str t -> s = t).
Proof.
  assert (R : forall u, unescape (escape u) = Some u).
  { induction u as [|c u IH]; [reflexivity|].
    cbn [escape]. now apply unescape_escape_char. }
  split; [apply R|].
  unfold dumps_str. intros E.
  apply append_inv_head, append_inv_tail in E.
  pose proof (R s) as Rs. rewrite E, R in Rs. now injection Rs.
Qed.

Lemma dumps_str_injective_witness :
  "my" ++ quote ++ "mod" = "my" ++ quote ++ "mod".
Proof.
  apply (proj2 (dumps_str_injective ("my" ++ quote ++ "mod") ("my" ++ quote ++ "mod"))).
  reflexivity.
Defined.

Lemma all_printable_append (s t : string) :
  all_printable (s ++ t) = all_printable s && all_printable t.
Proof.
  induction s as [|c s IH]; cbn [append all_printable]; [reflexivity|].
  now rewrite IH, andb_assoc.
Qed.

Lemma escape_printable (s : string) : all_printable (escape s) = true.
Proof.
  induction s as [|c s IH]; [reflexivity|].
  cbn [escape]. rewrite all_printable_append, IH, andb_true_r.
  destruct c as [[] [] [] [] [] [] [] []]; reflexivity.
Qed.

Lemma dumps_str_printable (s : string) : all_printable (dumps_str s) = true.
Proof.
  unfold dumps_str. now rewrite !all_printable_append, escape_printable.
Qed.

Lemma join_printable (sep : string) (items : list string) :
  all_printable sep = true ->
  Forall (fun item => all_printable item = true) items ->
  all_printable (join sep items) = true.
Proof.
  intros Hs F. unfold join. induction F as [|x xs Hx F IH]; [reflexivity|].
  cbn [concat]. destruct xs as [|y ys]; [exact Hx|].
  now rewrite !all_printable_append, Hx, Hs, IH.
Qed.

Lemma str_digits_printable (fuel : nat) (n : N) (acc : string) :
  all_printable acc = true -> all_printable (str_digits fuel n acc) = true.
Proof.
  revert n acc. induction fuel as [|fuel IH]; intros n acc H; [exact H|].
  cbn [str_digits].
  assert (D : all_printable (String (digit_char (n mod 10)) acc) = true).
  { cbn [all_printable]. rewrite H, andb_true_r.
    assert (L : (n mod 10 < 10)%N) by (apply N.mod_lt; lia).
    generalize dependent (n mod 10)%N. intros d L.
    assert (C : (d = 0 \/ d = 1 \/ d = 2 \/ d = 3 \/ d = 4 \/ d = 5 \/ d = 6
                 \/ d = 7 \/ d = 8 \/ d = 9)%N) by lia.
    repeat (destruct C as [-> | C]; [reflexivity|]). now rewrite C. }
  destruct (n <? 10)%N; [exact D | now apply IH].
Qed.

Lemma str_int_printable (n : Z) : all_printable (str_int n) = true.
Proof.
  unfold str_int. cbv zeta.
  pose proof (str_digits_printable (S (N.to_nat (N.size (Z.abs_N n)))) (Z.abs_N n)
                "" eq_refl) as D.
  destruct (n <? 0)%Z; [cbn [all_printable]; now rewrite D | exact D].
Qed.

(** X18.  Whatever the records hold, the written document consists of
    printable ASCII characters only: no line break, no control character
    and no character above 126 reaches the output file. *)
Theorem to_json_printable (d : SyncData) : all_printable (to_json d) = true.
Proof.
  unfold to_json, dumps_list.
  rewrite !all_printable_append, !dumps_str_printable, str_int_printable.
  cbn [all_printable andb]. change (printable "{") with true.
  rewrite join_printable; [reflexivity | reflexivity |].
  apply Forall_forall. intros item Hi. apply in_map_iff in Hi.
  destruct Hi as (c & <- & _). unfold dumps_dict, Content_dict.
  rewrite !all_printable_append. cbn [all_printable andb map fst snd].
  rewrite join_printable; [reflexivity | reflexivity |].
  repeat constructor; rewrite !all_printable_append, !dumps_str_printable;
    reflexivity.
Qed.

End JsonFacts.

(** ** The two [main] functions *)

Module StaticMainFacts.

Import PyFacts Static StaticFacts StaticMain.

Lemma endswith_app_l (p s sfx : string) :
  endswith s sfx = true -> endswith (p ++ s) sfx = true.
Proof.
  intros H. apply endswith_iff in H. destruct H as [t ->].
  rewrite <- append_assoc. apply endswith_append.
Qed.

Lemma is_archive_name_app (p file : string) :
  is_archive_name file = true -> is_archive_name (p ++ file) = true.
Proof.
  unfold is_archive_name. rewrite !orb_true_iff.
  intros [H | H]; [left | right]; now apply endswith_app_l.
Qed.

Section Run.

Variable url_base_path : string.
Variable working_directories : list string.
Variable working_directory_to_url_override : dict string.
Variable accept_mfs : bool.
Variable json_load toml_load_mod0 : string -> result (dict string).
Variable disk : string -> option (option (list (string * string))).
Variable listdir : string -> result (list string).
Variable urandom : nat -> list Byte.byte.
Variable str_exn : exn -> string.

(** Construction of the parser of a scanned archive can fail only
    because the file is not there. *)
Lemma Parser_init_scanned (working_directory file correction : string) :
  is_archive_name file = true ->
  Parser_init disk (fixed_path working_directory ++ file) correction accept_mfs =
  match disk (fixed_path working_directory ++ file) with
  | Some _ => Return (mkParser (fixed_path working_directory ++ file) correction
                        accept_mfs)
  | None => Raise (Exception (fixed_path working_directory ++ file ++ " does not exist"))
  end.
Proof.
  intros A. unfold Parser_init.
  destruct (disk _); [|now rewrite append_assoc].
  apply (is_archive_name_app (fixed_path working_directory)) in A.
  unfold is_archive_name in A.
  destruct (endswith _ ".jar"), (endswith _ ".zip"); try reflexivity.
  discriminate A.
Qed.

Lemma parse_one_parses (parser : Parser) (run : Run) :
  parses (parse_one url_base_path json_load toml_load_mod0 disk urandom str_exn
            parser run) = S (parses run).
Proof. unfold parse_one. now destruct (parse _ _ _ _ _ _). Qed.

Lemma parse_one_contents (file_path correction : string) (run : Run) :
  contents (sync_data (parse_one url_base_path json_load toml_load_mod0 disk urandom
                         str_exn (mkParser file_path correction accept_mfs) run))
  = (contents (sync_data run)
     ++ records_from url_base_path accept_mfs json_load toml_load_mod0 disk urandom
          (parses run) [(file_path, correction)])%list.
Proof.
  unfold parse_one. cbn [records_from].
  destruct (parse _ _ _ _ _ _); cbn [sync_data add_content contents];
    [reflexivity | now rewrite app_nil_r].
Qed.

Lemma parse_one_version (parser : Parser) (run : Run) :
  sync_version (sync_data (parse_one url_base_path json_load toml_load_mod0 disk
                             urandom str_exn parser run))
  = sync_version (sync_data run).
Proof. unfold parse_one. now destruct (parse _ _ _ _ _ _). Qed.

Lemma records_from_app (k : nat) (a b : list (string * string)) :
  records_from url_base_path accept_mfs json_load toml_load_mod0 disk urandom k
    (a ++ b)
  = (records_from url_base_path accept_mfs json_load toml_load_mod0 disk urandom k a
     ++ records_from url_base_path accept_mfs json_load toml_load_mod0 disk urandom
          (k + List.length a) b)%list.
Proof.
  revert k. induction a as [|[fp c] a IH]; intros k; cbn [app records_from List.length].
  - now rewrite Nat.add_0_r.
  - rewrite IH. replace (S k + List.length a)%nat with (k + S (List.length a))%nat by lia.
    now destruct (parse _ _ _ _ _ _).
Qed.

(** One directory whose listed archives are all there. *)
Lemma scan_files_present (working_directory correction : string)
    (files : list string) (run : Run) :
  (forall f, In f files -> is_archive_name f = true ->
             disk (fixed_path working_directory ++ f) <> None) ->
  exists run',
    scan_files url_base_path accept_mfs json_load toml_load_mod0 disk urandom str_exn
      working_directory correction files run = (run', None)
    /\ contents (sync_data run')
       = (contents (sync_data run)
          ++ records_from url_base_path accept_mfs json_load toml_load_mod0 disk
               urandom (parses run)
               (map (fun file => ((fixed_path working_directory ++ file)%string, correction))
                  (filter is_archive_name files)))%list
    /\ parses run' = (parses run + List.length (filter is_archive_name files))%nat
    /\ sync_version (sync_data run') = sync_version (sync_data run).
Proof.
  revert run. induction files as [|f files IH]; intros run H.
  - exists run. cbn. now rewrite app_nil_r, Nat.add_0_r.
  - assert (H' : forall g, In g files -> is_archive_name g = true ->
                           disk (fixed_path working_directory ++ g) <> None)
      by (intros g Hg; apply H; now right).
    cbn [scan_files filter]. fold (is_archive_name f).
    destruct (is_archive_name f) eqn:A.
    + rewrite (Parser_init_scanned _ _ _ A).
      destruct (disk (fixed_path working_directory ++ f)) eqn:D;
        [|now destruct (H f (or_introl eq_refl) A)].
      destruct (IH (parse_one url_base_path json_load toml_load_mod0 disk urandom
                      str_exn (mkParser (fixed_path working_directory ++ f)
                                 correction accept_mfs) run) H')
        as (run' & E & C & P & V).
      exists run'. split; [exact E|].
      rewrite C, P, V, parse_one_contents, parse_one_parses, parse_one_version.
      cbn [map List.length].
      change ((fixed_path working_directory ++ f, correction)
              :: map (fun file => ((fixed_path working_directory ++ file)%string, correction))
                   (filter is_archive_name files))
        with ([((fixed_path working_directory ++ f)%string, correction)]
              ++ map (fun file => ((fixed_path working_directory ++ file)%string, correction))
                   (filter is_archive_name files))%list.
      rewrite records_from_app, <- app_assoc. cbn [List.length].
      replace (parses run + 1)%nat with (S (parses run)) by lia.
      split; [reflexivity | split; [lia | reflexivity]].
    + exact (IH run H').
Qed.

Lemma jobs_of_listing (working_directory correction : string) (files : list string) :
  dict_get working_directory_to_url_override working_directory = Some correction ->
  listdir working_directory = Return files ->
  jobs_of working_directory_to_url_override listdir working_directory
  = map (fun file => ((fixed_path working_directory ++ file)%string, correction))
      (filter is_archive_name files).
Proof. intros D L. unfold jobs_of. now rewrite D, L. Qed.

Lemma scan_directories_present (directories : list string) (run : Run) :
  (forall wd, In wd directories ->
              dict_get working_directory_to_url_override wd <> None) ->
  (forall wd files f,
      In wd directories -> listdir wd = Return files -> In f files ->
      is_archive_name f = true -> disk (fixed_path wd ++ f) <> None) ->
  exists run',
    scan_directories url_base_path working_directory_to_url_override accept_mfs
      json_load toml_load_mod0 disk listdir urandom str_exn directories run
    = (run', None)
    /\ contents (sync_data run')
       = (contents (sync_data run)
          ++ records_from url_base_path accept_mfs json_load toml_load_mod0 disk
               urandom (parses run)
               (flat_map (jobs_of working_directory_to_url_override listdir)
                  directories))%list
    /\ sync_version (sync_data run') = sync_version (sync_data run).
Proof.
  revert run. induction directories as [|wd directories IH]; intros run HO HD.
  - exists run. cbn. now rewrite app_nil_r.
  - assert (HO' : forall d, In d directories ->
                    dict_get working_directory_to_url_override d <> None)
      by (intros d Hd; apply HO; now right).
    assert (HD' : forall d files f,
               In d directories -> listdir d = Return files -> In f files ->
               is_archive_name f = true -> disk (fixed_path d ++ f) <> None)
      by (intros d files f Hd; apply HD; now right).
    cbn [scan_directories flat_map]. unfold getitem.
    destruct (dict_get working_directory_to_url_override wd) as [correction|] eqn:D;
      [|now destruct (HO wd (or_introl eq_refl))].
    destruct (listdir wd) as [files|e] eqn:L.
    + destruct (scan_files_present wd correction files run
                  (fun f Hf A => HD wd files f (or_introl eq_refl) L Hf A))
        as (run1 & E1 & C1 & P1 & V1).
      rewrite E1.
      destruct (IH run1 HO' HD') as (run' & E & C & V).
      exists run'. split; [exact E|].
      rewrite C, V, C1, V1, P1, (jobs_of_listing wd correction files D L).
      rewrite records_from_app, length_map, <- app_assoc.
      split; reflexivity.
    + destruct (IH (report_directory str_exn wd e run) HO' HD') as (run' & E & C & V).
      exists run'. split; [exact E|].
      rewrite C, V. unfold jobs_of. rewrite D, L. split; reflexivity.
Qed.

(** X19.  When every working directory has a correction and every listed
    archive is there, [main] ends normally and writes the records of
    exactly the archives that parse, in the order of the directories and
    of their listings.  Archives that fail to parse, entries that are
    not [.jar] or [.zip] and directories that cannot be listed add
    nothing and stop nothing. *)
Theorem main_writes_parsed_archives :
  (forall wd, In wd working_directories ->
              dict_get working_directory_to_url_override wd <> None) ->
  (forall wd files f,
      In wd working_directories -> listdir wd = Return files -> In f files ->
      is_archive_name f = true -> disk (fixed_path wd ++ f) <> None) ->
  let outcome :=
    main url_base_path working_directories working_directory_to_url_override
      accept_mfs json_load toml_load_mod0 disk listdir urandom str_exn in
  out_written outcome
  = Some (to_json
            (SyncData_init
               (records_from url_base_path accept_mfs json_load toml_load_mod0 disk
                  urandom 0
                  (jobs working_directories working_directory_to_url_override
                     listdir))))
  /\ out_raised outcome = None
  /\ exists lines, out_printed outcome = (lines ++ ["Done"])%list.
Proof.
  intros HO HD outcome. unfold outcome, main.
  destruct (scan_directories_present working_directories
              (mkRun (SyncData_init []) [] 0) HO HD) as (run & E & C & V).
  rewrite E. cbn [out_written out_raised out_printed].
  split; [|split; [reflexivity | now exists (printed run)]].
  do 2 f_equal. destruct (sync_data run) as [ver cs].
  cbn [contents sync_version SyncData_init parses app] in *.
  unfold jobs. now rewrite C, V.
Qed.

(** X20.  A listed archive that is not there ends the scan of its directory:
    the exception leaves the loop, the entries after it are not looked
    at, and what the entries before it gave is kept. *)
Theorem scan_files_stops_at_missing_file (working_directory correction : string)
    (pre post : list string) (file : string) (run : Run) :
  is_archive_name file = true ->
  disk (fixed_path working_directory ++ file) = None ->
  (forall g, In g pre -> is_archive_name g = true ->
             disk (fixed_path working_directory ++ g) <> None) ->
  exists run',
    scan_files url_base_path accept_mfs json_load toml_load_mod0 disk urandom str_exn
      working_directory correction pre run = (run', None)
    /\ scan_files url_base_path accept_mfs json_load toml_load_mod0 disk urandom
         str_exn working_directory correction (pre ++ file :: post) run
       = (run', Some (Exception (fixed_path working_directory ++ file
                                 ++ " does not exist"))).
Proof.
  intros A D. revert run. induction pre as [|g pre IH]; intros run H.
  - exists run. split; [reflexivity|].
    cbn [app scan_files]. fold (is_archive_name file).
    now rewrite A, (Parser_init_scanned _ _ _ A), D.
  - assert (H' : forall h, In h pre -> is_archive_name h = true ->
                           disk (fixed_path working_directory ++ h) <> None)
      by (intros h Hh; apply H; now right).
    cbn [app scan_files]. fold (is_archive_name g).
    destruct (is_archive_name g) eqn:Ag; [|exact (IH run H')].
    rewrite (Parser_init_scanned _ _ _ Ag).
    destruct (disk (fixed_path working_directory ++ g)) eqn:Dg;
      [|now destruct (H g (or_introl eq_refl) Ag)].
    apply IH, H'.
Qed.

Lemma scan_directories_missing_override (pre post : list string) (wd : string)
    (run : Run) :
  (forall d, In d pre -> dict_get working_directory_to_url_override d <> None) ->
  dict_get working_directory_to_url_override wd = None ->
  exists run',
    scan_directories url_base_path working_directory_to_url_override accept_mfs
      json_load toml_load_mod0 disk listdir urandom str_exn (pre ++ wd :: post) run
    = (run', Some (KeyError wd)).
Proof.
  intros HO D. revert run. induction pre as [|d pre IH]; intros run.
  - exists run. cbn [app scan_directories]. unfold getitem. now rewrite D.
  - cbn [app scan_directories]. unfold getitem.
    destruct (dict_get working_directory_to_url_override d) eqn:Dd;
      [|now destruct (HO d (or_introl eq_refl))].
    apply IH. intros d' Hd'. apply HO. now right.
Qed.

(** X21.  A working directory without an entry in the correction table ends
    the whole run with [KeyError]: the lookup is outside every [try], so
    the output file is not written, whatever the directories before it
    gave. *)
Theorem main_raises_without_correction (pre post : list string) (wd : string) :
  working_directories = (pre ++ wd :: post)%list ->
  (forall d, In d pre -> dict_get working_directory_to_url_override d <> None) ->
  dict_get working_directory_to_url_override wd = None ->
  let outcome :=
    main url_base_path working_directories working_directory_to_url_override
      accept_mfs json_load toml_load_mod0 disk listdir urandom str_exn in
  out_raised outcome = Some (KeyError wd) /\ out_written outcome = None.
Proof.
  intros E HO D outcome. unfold outcome, main. rewrite E.
  destruct (scan_directories_missing_override pre post wd
              (mkRun (SyncData_init []) [] 0) HO D) as [run ->].
  now split.
Qed.

End Run.

Lemma main_writes_parsed_archives_witness :
  out_written
    (main default_url_base_path StaticScenario.working_directories
       StaticScenario.working_directory_to_url_override false
       StaticScenario.json_load StaticScenario.toml_load_mod0 StaticScenario.disk
       StaticScenario.listdir StaticScenario.urandom StaticScenario.str_exn)
  = Some (to_json
            (SyncData_init
               [ mkContent "https://example.com/static/content/sodium.jar"
                   "Sodium" "0.5.3" mod_;
                 mkContent "https://example.com/static/content/backup/sky.zip"
                   "sky" "42" shader ])).
Proof.
  assert (Corrections : forall wd, In wd StaticScenario.working_directories ->
            dict_get StaticScenario.working_directory_to_url_override wd <> None).
  { intros wd Hwd. simpl in Hwd. destruct Hwd as [<- | [<- | []]]; discriminate. }
  assert (Present : forall wd files f,
            In wd StaticScenario.working_directories ->
            StaticScenario.listdir wd = Return files -> In f files ->
            is_archive_name f = true ->
            StaticScenario.disk (fixed_path wd ++ f) <> None).
  { intros wd files f Hwd L Hf A. simpl in Hwd.
    destruct Hwd as [<- | [<- | []]]; vm_compute in L; injection L as <-;
      simpl in Hf; repeat (destruct Hf as [<- | Hf]; [try discriminate A|]);
      try contradiction; discriminate. }
  exact (proj1 (main_writes_parsed_archives default_url_base_path
                  StaticScenario.working_directories
                  StaticScenario.working_directory_to_url_override false
                  StaticScenario.json_load StaticScenario.toml_load_mod0
                  StaticScenario.disk StaticScenario.listdir StaticScenario.urandom
                  StaticScenario.str_exn Corrections Present)).
Defined.

Lemma scan_files_stops_at_missing_file_witness :
  exists run',
    scan_files default_url_base_path false StaticScenario.json_load
      StaticScenario.toml_load_mod0 StaticScenario.disk StaticScenario.urandom
      StaticScenario.str_exn "." "" ["sodium.jar"; "ghost.jar"; "late.jar"]
      (mkRun (SyncData_init []) [] 0)
    = (run', Some (Exception "./ghost.jar does not exist")).
Proof.
  destruct (scan_files_stops_at_missing_file default_url_base_path false
              StaticScenario.json_load StaticScenario.toml_load_mod0
              StaticScenario.disk StaticScenario.urandom StaticScenario.str_exn
              "." "" ["sodium.jar"] ["late.jar"] "ghost.jar"
              (mkRun (SyncData_init []) [] 0))
    as (run' & _ & E).
  - reflexivity.
  - reflexivity.
  - intros g Hg _. simpl in Hg. destruct Hg as [<- | []]. discriminate.
  - exists run'. exact E.
Defined.

Lemma main_raises_without_correction_witness :
  out_raised
    (main default_url_base_path ["./"; "./unlisted/"; "./another/directory/"]
       StaticScenario.working_directory_to_url_override false
       StaticScenario.json_load StaticScenario.toml_load_mod0 StaticScenario.disk
       StaticScenario.listdir StaticScenario.urandom StaticScenario.str_exn)
  = Some (KeyError "./unlisted/").
Proof.
  assert (Corrections : forall d, In d ["./"] ->
            dict_get StaticScenario.working_directory_to_url_override d <> None).
  { intros d Hd. simpl in Hd. destruct Hd as [<- | []]. discriminate. }
  exact (proj1 (main_raises_without_correction default_url_base_path
                  ["./"; "./unlisted/"; "./another/directory/"]
                  StaticScenario.working_directory_to_url_override false
                  StaticScenario.json_load StaticScenario.toml_load_mod0
                  StaticScenario.disk StaticScenario.listdir StaticScenario.urandom
                  StaticScenario.str_exn
                  ["./"] ["./another/directory/"] "./unlisted/"
                  eq_refl Corrections eq_refl)).
Defined.

End StaticMainFacts.

Module ModrinthMainFacts.

Import PyFacts Modrinth ModrinthFacts ModrinthMain.

Section Run.

Variable input_file : string.
Variable output_file : string.
Variable get_versions : list string -> Response (list VersionObj).
Variable get_projects : list string -> Response (list ProjectObj).
Variable files_on_disk : string -> option string.
Variable str_exn : exn -> string.

(** [main] once the input file has been read: what is left is the [try]
    block, in the world the construction left, and the last line. *)
Lemma main_after_read (data : string) (w : World) :
  files_on_disk input_file = Some data ->
  main input_file output_file get_versions get_projects files_on_disk str_exn w =
  match generate get_versions get_projects str_exn
          (mkParser input_file (splitlines data))
          (mkWorld
             (fold_left (fun d version => dict_set d version "") (splitlines data)
                (id_map w))
             ((stdout w ++ [print_args ["Reading versions from"; input_file]])
              ++ [print_args ["Generating sync file"; output_file]])) with
  | (Return written, w') =>
      (Return written, mkWorld (id_map w') (stdout w' ++ ["Done"]))
  | (Raise e, w') => (Raise e, w')
  end.
Proof.
  intros F. unfold main, Parser_init, read_file. rewrite F.
  cbv beta iota delta [mbind ret print init_id_map get_id_map put_id_map].
  cbn [id_map stdout versions].
  now destruct (generate _ _ _ _ _) as [[written | e] w'].
Qed.

Lemma generate_returns (parser : Parser) (w : World) :
  exists written w', generate get_versions get_projects str_exn parser w
                     = (Return written, w').
Proof.
  unfold generate, print.
  destruct (parse get_versions get_projects parser w) as [[sd | e] w'];
    eexists _, _; reflexivity.
Qed.

(** X22.  The one exception that leaves [main] is that of an input file that
    cannot be read: it is raised after the first line is printed, before
    the join map is touched, and the output file is not written.  With a
    readable input file [main] always ends normally, with [Done] as the
    last line, whatever the registry answers. *)
Theorem main_raises_only_for_input (w : World) :
  (files_on_disk input_file = None ->
   main input_file output_file get_versions get_projects files_on_disk str_exn w
   = (Raise (FileNotFoundError input_file),
      mkWorld (id_map w)
        (stdout w ++ [print_args ["Reading versions from"; input_file]])))
  /\ (forall data,
         files_on_disk input_file = Some data ->
         exists written w' lines,
           main input_file output_file get_versions get_projects files_on_disk
             str_exn w = (Return written, w')
           /\ stdout w' = (lines ++ ["Done"])%list).
Proof.
  split.
  - intros F. unfold main, Parser_init, read_file. rewrite F. reflexivity.
  - intros data F. rewrite (main_after_read data w F).
    match goal with |- context [generate _ _ _ ?p ?x] =>
      destruct (generate_returns p x) as (written & w' & ->) end.
    exists written, (mkWorld (id_map w') (stdout w' ++ ["Done"])), (stdout w').
    split; reflexivity.
Qed.

(** X23.  When the versions call fails, [main] still writes the output file:
    it writes the descriptor without records, for every input. *)
Theorem main_writes_empty_when_versions_fail (data : string) (w : World) :
  files_on_disk input_file = Some data ->
  status_code (get_versions (splitlines data)) <> 200 ->
  (exists w',
      main input_file output_file get_versions get_projects files_on_disk str_exn w
      = (Return (Some (to_json (SyncData_init []))), w'))
  /\ to_json (SyncData_init [])
     = "{" ++ quote ++ "sync_version" ++ quote ++ ": 3, "
       ++ quote ++ "sync" ++ quote ++ ": []}".
Proof.
  intros F H. split; [|reflexivity].
  rewrite (main_after_read data w F). unfold generate.
  match goal with |- context [parse _ _ ?p ?x] =>
    destruct (parse_phase1_failure get_versions get_projects p x H) as [w1 ->] end.
  eexists. reflexivity.
Qed.

(** X24.  When an identifier of the input has phase-1 data and phase 2 has no
    name for its project, [main] does not open the output file: it
    prints the failure and [Done] and ends normally. *)
Theorem main_writes_nothing_when_name_missing (data v : string) (w w2 w3 : World)
    (files_info : dict FileInfo) (projects_info : dict string) :
  let self := mkParser input_file (splitlines data) in
  let w1 :=
    mkWorld
      (fold_left (fun d version => dict_set d version "") (splitlines data) (id_map w))
      ((stdout w ++ [print_args ["Reading versions from"; input_file]])
       ++ [print_args ["Generating sync file"; output_file]]) in
  files_on_disk input_file = Some data ->
  get_versions_files get_versions self w1 = (Return files_info, w2) ->
  get_projects_info get_projects self w2 = (Return projects_info, w3) ->
  In v (splitlines data) ->
  dict_contains files_info v = true ->
  (forall pid, dict_get (id_map w3) v = Some pid -> dict_get projects_info pid = None) ->
  exists e,
    main input_file output_file get_versions get_projects files_on_disk str_exn w
    = (Return None,
       mkWorld (id_map w3)
         ((stdout w3 ++ [print_args ["Failed to generate sync file:"; str_exn e]])
          ++ ["Done"])).
Proof.
  intros self w1 F E1 E2 Hv C Hmiss.
  rewrite (main_after_read data w F). fold self. fold w1. unfold generate.
  destruct (parse_missing_name_raises get_versions get_projects self w1 w2 w3
              files_info projects_info v E1 E2 Hv C Hmiss) as [e ->].
  exists e. reflexivity.
Qed.

End Run.

Lemma main_raises_only_for_input_witness :
  main "versions.txt" "sync.json" Scenario.unavailable Scenario.unavailable
    (fun _ => None) StaticScenario.str_exn fresh_world
  = (Raise (FileNotFoundError "versions.txt"),
     mkWorld [] ["Reading versions from versions.txt"]).
Proof.
  apply (proj1 (main_raises_only_for_input "versions.txt" "sync.json"
                  Scenario.unavailable Scenario.unavailable (fun _ => None)
                  StaticScenario.str_exn fresh_world)).
  reflexivity.
Defined.

Lemma main_writes_empty_when_versions_fail_witness :
  exists w',
    main "versions.txt" "sync.json" Scenario.unavailable
      (Scenario.projects_known [Scenario.P1]) Scenario.files_on_disk
      StaticScenario.str_exn fresh_world
    = (Return (Some (to_json (SyncData_init []))), w').
Proof.
  apply (proj1 (main_writes_empty_when_versions_fail "versions.txt" "sync.json"
                  Scenario.unavailable (Scenario.projects_known [Scenario.P1])
                  Scenario.files_on_disk StaticScenario.str_exn
                  ("V1" ++ Scenario.newline ++ "V2" ++ Scenario.newline)
                  fresh_world eq_refl ltac:(discriminate))).
Defined.

Lemma main_writes_nothing_when_name_missing_witness :
  exists e,
    main "versions.txt" "sync.json"
      (Scenario.versions_known [Scenario.V1; Scenario.V2])
      (Scenario.projects_known [Scenario.P1]) Scenario.files_on_disk
      StaticScenario.str_exn fresh_world
    = (Return None,
       mkWorld [("V1", "P1"); ("V2", "P2")]
         [ "Reading versions from versions.txt";
           "Generating sync file sync.json";
           print_args ["Failed to generate sync file:"; StaticScenario.str_exn e];
           "Done" ]).
Proof.
  assert (Missing : forall pid,
            dict_get [("V1", "P1"); ("V2", "P2")] "V2" = Some pid ->
            dict_get [("P1", "Project One")] pid = None).
  { intros pid E. injection E as <-. reflexivity. }
  exact (main_writes_nothing_when_name_missing "versions.txt" "sync.json"
           (Scenario.versions_known [Scenario.V1; Scenario.V2])
           (Scenario.projects_known [Scenario.P1]) Scenario.files_on_disk
           StaticScenario.str_exn
           ("V1" ++ Scenario.newline ++ "V2" ++ Scenario.newline) "V2" fresh_world
           (mkWorld [("V1", "P1"); ("V2", "P2")]
              ["Reading versions from versions.txt"; "Generating sync file sync.json"])
           (mkWorld [("V1", "P1"); ("V2", "P2")]
              ["Reading versions from versions.txt"; "Generating sync file sync.json"])
           [("V1", mkFileInfo "https://cdn.example/v1.jar" mod_);
            ("V2", mkFileInfo "https://cdn.example/v2.zip" shader)]
           [("P1", "Project One")]
           eq_refl eq_refl eq_refl (or_intror (or_introl eq_refl)) eq_refl Missing).
Defined.

End ModrinthMainFacts.
